(** * von_agent.wallet: the [Wallet] class over the indy-sdk

    A shallow embedding of [src/von_agent/wallet.py].  The class sequences
    calls to the indy-sdk ([indy.wallet], [indy.did]) and keeps a session
    handle and a current DID / verification key.  The SDK is not part of the
    repository: it is a parameter of the development, and every theorem is
    stated for an arbitrary SDK behaviour.

    Python objects that the code shares or mutates (wallet objects, the
    configuration dict) live in a store and are referred to by location;
    methods are computations in a state-and-exception monad over that store,
    the SDK's own state, the log and the trace of SDK calls. *)

From stdpp Require Import base gmap strings list.
From Stdlib Require Import ZArith.

Set Warnings "-register-all".
#[local] Open Scope Z_scope.

(** ** Python values *)

(** The JSON-representable Python values: [None], booleans, integers,
    strings, lists and dicts with string keys. *)
Inductive value : Type :=
  | VNone
  | VBool (b : bool)
  | VInt (z : Z)
  | VStr (s : string)
  | VList (l : list value)
  | VDict (d : gmap string value).

Abbreviation dict := (gmap string value).

(** Python truthiness, as used by [if x], [x or y] and [a if x else b]. *)
Definition truthy (v : value) : bool :=
  match v with
  | VNone => false
  | VBool b => b
  | VInt z => negb (z =? 0)
  | VStr s => negb (String.eqb s "")
  | VList l => match l with [] => false | _ => true end
  | VDict d => match map_to_list d with [] => false | _ => true end
  end.

(** [type(v).__name__] *)
Definition type_name (v : value) : string :=
  match v with
  | VNone => "NoneType"
  | VBool _ => "bool"
  | VInt _ => "int"
  | VStr _ => "str"
  | VList _ => "list"
  | VDict _ => "dict"
  end.

Definition opt_str (o : option string) : value :=
  match o with Some s => VStr s | None => VNone end.

Definition opt_int (o : option Z) : value :=
  match o with Some z => VInt z | None => VNone end.

(** ** JSON texts

    A JSON text is represented by the value it encodes: [json.dumps] wraps a
    value, [json.loads] unwraps it.  Texts received from the SDK are thereby
    well formed. *)
Record json_text : Type := Json { encoded : value }.

Definition json_dumps (v : value) : json_text := Json v.
Definition json_loads (t : json_text) : value := encoded t.

(** ** Exceptions *)

Inductive exn : Type :=
  | IndyError (error_code : Z)
  | AttributeError (type_ attr : string)
  | NameError (name : string)
  | KeyError (key : string)
  | TypeError (msg : string)
  | SystemError (msg : string)
  | OtherException (class_ : string)
  | OtherBaseException (class_ : string).

(** [isinstance(e, Exception)]: everything but the exceptions deriving from
    [BaseException] only ([KeyboardInterrupt], [SystemExit], ...). *)
Definition is_Exception (e : exn) : bool :=
  match e with
  | OtherBaseException _ => false
  | _ => true
  end.

Definition class_name (e : exn) : string :=
  match e with
  | IndyError _ => "IndyError"
  | AttributeError _ _ => "AttributeError"
  | NameError _ => "NameError"
  | KeyError _ => "KeyError"
  | TypeError _ => "TypeError"
  | SystemError _ => "SystemError"
  | OtherException c => c
  | OtherBaseException c => c
  end.

(** [indy.error.ErrorCode], the members used below. *)
Module ErrorCode.
Definition CommonInvalidState : Z := 112.
Definition CommonIOError : Z := 114.
Definition WalletInvalidHandle : Z := 200.
Definition WalletAlreadyExistsError : Z := 203.
Definition WalletNotFoundError : Z := 204.
Definition WalletItemNotFound : Z := 212.
End ErrorCode.

Inductive outcome (A : Type) : Type :=
  | Returned (a : A)
  | Raised (e : exn).
Arguments Returned {A} a.
Arguments Raised {A} e.

(** ** The SDK interface *)

Definition loc := positive.

(** The SDK functions the class calls, with their arguments; [handle] is the
    wallet's [_handle], which is [None] until a session was opened. *)
Inductive call : Type :=
  | create_wallet (pool_name name : string) (xtype : option string)
      (config : option json_text) (credentials : option string)
  | open_wallet (name : string) (config : option json_text)
      (credentials : option string)
  | close_wallet (handle : option Z)
  | delete_wallet (name : string) (credentials : option string)
  | create_and_store_my_did (handle : option Z) (identity_json : json_text)
  | get_my_did_with_meta (handle : option Z) (did : string)
  | list_my_dids_with_meta (handle : option Z).

(** What each SDK function returns when it does not raise. *)
Definition reply (c : call) : Type :=
  match c with
  | create_wallet _ _ _ _ _ => unit
  | open_wallet _ _ _ => Z
  | close_wallet _ => unit
  | delete_wallet _ _ => unit
  | create_and_store_my_did _ _ => (string * string)%type
  | get_my_did_with_meta _ _ => json_text
  | list_my_dids_with_meta _ => json_text
  end.

(** One entry of the trace of SDK calls: the wallet object that issued the
    call, the call, and the exception it raised if any. *)
Record event : Type := Event {
  issuer : loc;
  request : call;
  failure : option exn
}.

Definition failure_of {A} (r : outcome A) : option exn :=
  match r with Returned _ => None | Raised e => Some e end.

(** ** Logging *)

Inductive level : Type := DEBUG | INFO | ERROR.

(** What [str.format] fills in: a Python value, or a JSON text as the SDK
    returned it. *)
Inductive log_arg : Type :=
  | Val (v : value)
  | Text (t : json_text).

(** A log record keeps the template and what [str.format] fills in. *)
Record log_record : Type := Log {
  log_level : level;
  template : string;
  args : list log_arg
}.

(** ** Wallet objects *)

Record Wallet : Type := {
  _pool_name : string;
  _name : string;
  _handle : option Z;
  _cfg : loc;
  _did : value;
  _verkey : value
}.

Definition set__handle (h : option Z) (w : Wallet) : Wallet :=
  {| _pool_name := _pool_name w; _name := _name w; _handle := h;
     _cfg := _cfg w; _did := _did w; _verkey := _verkey w |}.

Definition set__did (v : value) (w : Wallet) : Wallet :=
  {| _pool_name := _pool_name w; _name := _name w; _handle := _handle w;
     _cfg := _cfg w; _did := v; _verkey := _verkey w |}.

Definition set__verkey (v : value) (w : Wallet) : Wallet :=
  {| _pool_name := _pool_name w; _name := _name w; _handle := _handle w;
     _cfg := _cfg w; _did := _did w; _verkey := v |}.

(** The names bound at module level in [wallet.py]: the imports, the module
    logger and the class. *)
Definition module_globals : list string :=
  ["indy_did"; "wallet"; "IndyError"; "ErrorCode"; "json"; "logging";
   "logger"; "Wallet"].

(** ** The world and the monad of methods *)

(** The world a method runs in.  [B] is the type of the SDK's own state. *)
Record World (B : Type) : Type := {
  wallets : gmap loc Wallet;     (* the Wallet objects *)
  dicts : gmap loc dict;         (* the dict objects *)
  records : list log_record;     (* what was logged, oldest first *)
  backend : B;                   (* the SDK's state *)
  calls : list event             (* the SDK calls made, oldest first *)
}.
Arguments wallets {B} _.
Arguments dicts {B} _.
Arguments records {B} _.
Arguments backend {B} _.
Arguments calls {B} _.

(** A computation returns a value or raises, and leaves a world behind in
    both cases. *)
Definition M (B A : Type) : Type := World B → outcome A * World B.

#[global] Instance M_ret {B} : MRet (M B) := λ A a σ, (Returned a, σ).

#[global] Instance M_bind {B} : MBind (M B) := λ A C k m σ,
  match m σ with
  | (Returned a, σ') => k a σ'
  | (Raised e, σ') => (Raised e, σ')
  end.

Definition raise {B A} (e : exn) : M B A := λ σ, (Raised e, σ).

(** [try: body / except ...: handler]; a handler that does not match the
    exception raises it again. *)
Definition try_except {B A} (body : M B A) (handler : exn → M B A) : M B A :=
  λ σ, match body σ with
       | (Returned a, σ') => (Returned a, σ')
       | (Raised e, σ') => handler e σ'
       end.

Section Methods.
(** The SDK: for every call, an outcome and a successor state.  Nothing is
    assumed about it. *)
Context {B : Type} (sdk : ∀ c : call, B → outcome (reply c) * B).

#[local] Abbreviation M := (M B).

(** *** Store primitives

    A Python reference always leads to an object; a location without object
    only makes these functions total, and raises [SystemError]. *)

Definition get_wallet (self : loc) : M Wallet := λ σ,
  match wallets σ !! self with
  | Some w => (Returned w, σ)
  | None => (Raised (SystemError "no such object"), σ)
  end.

Definition update_wallet (self : loc) (f : Wallet → Wallet) : M unit := λ σ,
  match wallets σ !! self with
  | Some w =>
      (Returned tt,
       {| wallets := <[self := f w]> (wallets σ); dicts := dicts σ;
          records := records σ; backend := backend σ; calls := calls σ |})
  | None => (Raised (SystemError "no such object"), σ)
  end.

Definition new_wallet (w : Wallet) : M loc := λ σ,
  let l := fresh (dom (wallets σ)) in
  (Returned l,
   {| wallets := <[l := w]> (wallets σ); dicts := dicts σ;
      records := records σ; backend := backend σ; calls := calls σ |}).

Definition read_dict (l : loc) : M dict := λ σ,
  match dicts σ !! l with
  | Some d => (Returned d, σ)
  | None => (Raised (SystemError "no such object"), σ)
  end.

Definition write_dict (l : loc) (d : dict) : M unit := λ σ,
  (Returned tt,
   {| wallets := wallets σ; dicts := <[l := d]> (dicts σ);
      records := records σ; backend := backend σ; calls := calls σ |}).

Definition new_dict (d : dict) : M loc := λ σ,
  let l := fresh (dom (dicts σ)) in
  (Returned l,
   {| wallets := wallets σ; dicts := <[l := d]> (dicts σ);
      records := records σ; backend := backend σ; calls := calls σ |}).

(** *** dict operations *)

(** [key in d] *)
Definition dict_contains (l : loc) (key : string) : M bool :=
  d ← read_dict l;
  mret (bool_decide (is_Some (d !! key))).

(** [d.pop(key)] *)
Definition dict_pop (l : loc) (key : string) : M value :=
  d ← read_dict l;
  match d !! key with
  | Some v => write_dict l (delete key d);; mret v
  | None => raise (KeyError key)
  end.

(** [d.get(key, default)] *)
Definition dict_get (l : loc) (key : string) (default : value) : M value :=
  d ← read_dict l;
  mret (match d !! key with Some v => v | None => default end).

(** [json.loads(json.dumps(d))] for a dict object [d]: the content is
    serialised and a new dict object is built from the text. *)
Definition json_roundtrip (l : loc) : M loc :=
  d ← read_dict l;
  match json_loads (json_dumps (VDict d)) with
  | VDict d' => new_dict d'
  | v => raise (TypeError (type_name v))
  end.

(** [json.dumps(d) if d else None] for a dict object [d]. *)
Definition dumps_or_None (l : loc) : M (option json_text) :=
  d ← read_dict l;
  mret (if truthy (VDict d) then Some (json_dumps (VDict d)) else None).

(** [v[key]] on a value decoded from JSON. *)
Definition subscript (v : value) (key : string) : M value :=
  match v with
  | VDict d =>
      match d !! key with
      | Some x => mret x
      | None => raise (KeyError key)
      end
  | _ => raise (TypeError (type_name v))
  end.

(** *** Names, logging and the SDK *)

(** Evaluating a global name of the module. *)
Definition lookup_global (name : string) : M unit :=
  if bool_decide (name ∈ module_globals) then mret tt
  else raise (NameError name).

(** [getattr(self, attr)] on a Wallet object: the instance attributes set
    by [__init__] and the properties of the class. *)
Definition getattr (self : loc) (attr : string) : M value :=
  w ← get_wallet self;
  if bool_decide (attr ∈ ["_pool_name"; "pool_name"]) then mret (VStr (_pool_name w))
  else if bool_decide (attr ∈ ["_name"; "name"]) then mret (VStr (_name w))
  else if bool_decide (attr ∈ ["_handle"; "handle"]) then mret (opt_int (_handle w))
  else if bool_decide (attr ∈ ["_cfg"; "cfg"]) then (d ← read_dict (_cfg w); mret (VDict d))
  else if bool_decide (attr ∈ ["_did"; "did"]) then mret (_did w)
  else if bool_decide (attr ∈ ["_verkey"; "verkey"]) then mret (_verkey w)
  else raise (AttributeError "Wallet" attr).

(** [v.attr] on a JSON-representable value: none of them has an attribute
    the class asks for. *)
Definition getattr_value (v : value) (attr : string) : M value :=
  raise (AttributeError (type_name v) attr).

Definition log (lv : level) (tpl : string) (vs : list log_arg) : M unit := λ σ,
  (Returned tt,
   {| wallets := wallets σ; dicts := dicts σ;
      records := records σ ++ [Log lv tpl vs];
      backend := backend σ; calls := calls σ |}).

(** [await] of an SDK function, recorded in the trace. *)
Definition sdk_call (self : loc) (c : call) : M (reply c) := λ σ,
  let (r, b) := sdk c (backend σ) in
  (r,
   {| wallets := wallets σ; dicts := dicts σ; records := records σ;
      backend := b;
      calls := calls σ ++ [Event self c (failure_of r)] |}).

(** ** class Wallet *)

(** [Wallet(pool_name, name, cfg)]: allocation of the object and
    [__init__].  [cfg] is [None] or a dict object of the caller's. *)
Definition __init__ (pool_name name : string) (cfg : option loc) : M loc :=
  shown ← match cfg with
          | Some l => d ← read_dict l; mret (VDict d)
          | None => mret VNone
          end;
  log DEBUG
    "Wallet.__init__: >>> pool_name {}, seed [SEED], name {}, cfg {}"
    [Val (VStr pool_name); Val (VStr name); Val shown];;
  stored ← match cfg with                      (* cfg or {} *)
           | Some l =>
               d ← read_dict l;
               if truthy (VDict d) then mret l else new_dict ∅
           | None => new_dict ∅
           end;
  self ← new_wallet
    {| _pool_name := pool_name; _name := name; _handle := None;
       _cfg := stored; _did := VNone; _verkey := VNone |};
  log DEBUG "Wallet.__init__: <<<" [];;
  mret self.

(** The properties. *)
Definition pool_name (self : loc) : M string :=
  w ← get_wallet self; mret (_pool_name w).

Definition name (self : loc) : M string :=
  w ← get_wallet self; mret (_name w).

Definition handle (self : loc) : M (option Z) :=
  w ← get_wallet self; mret (_handle w).

Definition cfg (self : loc) : M loc :=
  w ← get_wallet self; mret (_cfg w).

Definition did (self : loc) : M value :=
  w ← get_wallet self; mret (_did w).

Definition verkey (self : loc) : M value :=
  w ← get_wallet self; mret (_verkey w).

Definition open (self : loc) : M loc :=
  log DEBUG "Wallet.open: >>>" [];;
  stored ← cfg self;
  cfg_copy ← json_roundtrip stored;                     (* deep copy *)
  (dict_contains cfg_copy "auto_remove" ≫= λ has : bool,
     if has then dict_pop cfg_copy "auto_remove";; mret tt else mret tt);;
  try_except
    (p ← pool_name self;
     n ← name self;
     config ← dumps_or_None cfg_copy;
     sdk_call self (create_wallet p n None config None);;
     n ← name self;
     h ← handle self;
     log INFO "Created wallet {} on handle {}"
       [Val (VStr n); Val (opt_int h)])
    (λ e,
       match e with
       | IndyError error_code =>
           if error_code =? ErrorCode.WalletAlreadyExistsError then
             n ← name self;
             log INFO "Opening existing wallet: {}" [Val (VStr n)]
           else
             n ← name self;
             self_e ← getattr self "e";
             code ← getattr_value self_e "error_code";
             log ERROR "Cannot open wallet {}: indy error code {}"
               [Val (VStr n); Val code];;
             raise e
       | _ => raise e
       end);;
  n ← name self;
  config ← dumps_or_None cfg_copy;
  h ← sdk_call self (open_wallet n config None);
  update_wallet self (set__handle (Some h));;
  n ← name self;
  h ← handle self;
  log INFO "Opened wallet {} on handle {}" [Val (VStr n); Val (opt_int h)];;
  log DEBUG "Wallet.open: <<<" [];;
  mret self.

Definition __aenter__ (self : loc) : M loc :=
  log DEBUG "Wallet.__aenter__: >>>" [];;
  rv ← open self;
  log DEBUG "Wallet.__aenter__: <<<" [];;
  mret rv.

Definition remove (self : loc) : M unit :=
  log DEBUG "Wallet.close: >>>" [];;
  try_except
    (n ← name self;
     sdk_call self (delete_wallet n None))
    (λ e,
       if is_Exception e then
         lookup_global "sys";;                       (* sys.exc_info()[0] *)
         log INFO "Abstaining from wallet removal: {}"
           [Val (VStr (class_name e))]
       else raise e);;
  log DEBUG "Wallet.close: <<<" [].

Definition close (self : loc) : M unit :=
  log DEBUG "Wallet.close: >>>" [];;
  h ← handle self;
  sdk_call self (close_wallet h);;
  stored ← cfg self;
  auto_remove ← dict_get stored "auto_remove" (VBool false);
  (if truthy auto_remove then remove self else mret tt);;
  log DEBUG "Wallet.close: <<<" [].

Definition __aexit__ (self : loc) : M unit :=
  log DEBUG "Wallet.__aexit__: >>>" [];;
  close self;;
  log DEBUG "Wallet.__aexit__: <<<" [].

(** [{"did": did, "seed": seed, "cid": cid}] *)
Definition identity_config (did seed : option string) (cid : bool) : dict :=
  <["did" := opt_str did]> (<["seed" := opt_str seed]>
    (<["cid" := VBool cid]> ∅)).

Definition create_did (self : loc) (did seed : option string) (cid : bool)
    : M value :=
  w ← get_wallet self;
  '(d, vk) ← sdk_call self
    (create_and_store_my_did (_handle w)
       (json_dumps (VDict (identity_config did seed cid))));
  update_wallet self (set__did (VStr d));;
  update_wallet self (set__verkey (VStr vk));;
  w ← get_wallet self;
  log DEBUG "Wallet.create_did: stored {}, {}"
    [Val (_did w); Val (_verkey w)];;
  w ← get_wallet self;
  mret (_did w).

Definition load_did (self : loc) (did : string) : M value :=
  w ← get_wallet self;
  did_json ← sdk_call self (get_my_did_with_meta (_handle w) did);
  log DEBUG "Wallet.load: {}" [Text did_json];;
  let did_info := json_loads did_json in
  v ← subscript did_info "did";
  update_wallet self (set__did v);;
  v ← subscript did_info "verkey";
  update_wallet self (set__verkey v);;
  w ← get_wallet self;
  mret (_did w).

Definition stored_dids (self : loc) : M value :=
  w ← get_wallet self;
  did_json ← sdk_call self (list_my_dids_with_meta (_handle w));
  log DEBUG "Wallet.stored_dids: {}" [Text did_json];;
  mret (json_loads did_json).
End Methods.

(** ** An in-memory SDK

    A small executable stand-in for the indy-sdk, used to run the class on
    concrete scenarios: wallets by name with their identities in creation
    order, open sessions by handle, and an optional storage fault that makes
    deletion fail.  It is no model of the indy-sdk and no theorem about the
    class assumes it: the theorems hold for every SDK, and this one only
    supplies concrete inputs on which their hypotheses hold. *)
Record MemSDK : Type := {
  stored : gmap string (list (string * string));
  sessions : gmap Z string;
  next_handle : Z;
  delete_fault : option exn
}.

Definition mem_empty : MemSDK :=
  {| stored := ∅; sessions := ∅; next_handle := 1; delete_fault := None |}.

(** A toy key derivation: the DID and the verification key are functions of
    the seed, or of the explicit DID when no seed is given. *)
Definition derive (identity_json : json_text) : string * string :=
  match json_loads identity_json with
  | VDict d =>
      match d !! "seed", d !! "did" with
      | Some (VStr s), _ => (("did:" +:+ s)%string, ("verkey:" +:+ s)%string)
      | _, Some (VStr i) => (i, ("verkey:" +:+ i)%string)
      | _, _ => ("did:random", "verkey:random")%string
      end
  | _ => ("did:random", "verkey:random")%string
  end.

Definition identity_record (p : string * string) : value :=
  VDict (<["did" := VStr p.1]> (<["verkey" := VStr p.2]>
    (<["metadata" := VNone]> ∅))).

Definition session_wallet (h : option Z) (b : MemSDK)
    : option (string * list (string * string)) :=
  z ← h; n ← sessions b !! z; ids ← stored b !! n; Some (n, ids).

Definition mem_sdk (c : call) (b : MemSDK) : outcome (reply c) * MemSDK :=
  match c return outcome (reply c) * MemSDK with
  | create_wallet _ n _ _ _ =>
      match stored b !! n with
      | Some _ => (Raised (IndyError ErrorCode.WalletAlreadyExistsError), b)
      | None =>
          (Returned tt,
           {| stored := <[n := []]> (stored b); sessions := sessions b;
              next_handle := next_handle b; delete_fault := delete_fault b |})
      end
  | open_wallet n _ _ =>
      match stored b !! n with
      | Some _ =>
          (Returned (next_handle b),
           {| stored := stored b;
              sessions := <[next_handle b := n]> (sessions b);
              next_handle := next_handle b + 1;
              delete_fault := delete_fault b |})
      | None => (Raised (IndyError ErrorCode.WalletNotFoundError), b)
      end
  | close_wallet h =>
      match session_wallet h b, h with
      | Some _, Some z =>
          (Returned tt,
           {| stored := stored b; sessions := delete z (sessions b);
              next_handle := next_handle b; delete_fault := delete_fault b |})
      | _, _ => (Raised (IndyError ErrorCode.WalletInvalidHandle), b)
      end
  | delete_wallet n _ =>
      match delete_fault b, stored b !! n with
      | Some e, _ => (Raised e, b)
      | None, Some _ =>
          (Returned tt,
           {| stored := delete n (stored b); sessions := sessions b;
              next_handle := next_handle b; delete_fault := delete_fault b |})
      | None, None => (Raised (IndyError ErrorCode.WalletNotFoundError), b)
      end
  | create_and_store_my_did h j =>
      match session_wallet h b with
      | Some (n, ids) =>
          let p := derive j in
          (Returned p,
           {| stored :=
                <[n := if bool_decide (p ∈ ids) then ids else ids ++ [p]]>
                  (stored b);
              sessions := sessions b; next_handle := next_handle b;
              delete_fault := delete_fault b |})
      | None => (Raised (IndyError ErrorCode.WalletInvalidHandle), b)
      end
  | get_my_did_with_meta h i =>
      match session_wallet h b with
      | Some (n, ids) =>
          match filter (λ p, p.1 = i) ids with
          | p :: _ => (Returned (json_dumps (identity_record p)), b)
          | [] => (Raised (IndyError ErrorCode.WalletItemNotFound), b)
          end
      | None => (Raised (IndyError ErrorCode.WalletInvalidHandle), b)
      end
  | list_my_dids_with_meta h =>
      match session_wallet h b with
      | Some (n, ids) =>
          (Returned (json_dumps (VList (identity_record <$> ids))), b)
      | None => (Raised (IndyError ErrorCode.WalletInvalidHandle), b)
      end
  end.

(** An SDK whose every call fails with the same exception, as when the
    wallet storage is unavailable. *)
Definition failing_sdk (e : exn) (c : call) (b : unit)
    : outcome (reply c) * unit :=
  (Raised e, b).

(** The world before any object exists. *)
Definition empty_world {B} (b : B) : World B :=
  {| wallets := ∅; dicts := ∅; records := []; backend := b; calls := [] |}.

(** [world_after m σ] is the world [m] leaves when started in [σ];
    [result m σ] is its outcome. *)
Definition world_after {B A} (m : M B A) (σ : World B) : World B := (m σ).2.
Definition result {B A} (m : M B A) (σ : World B) : outcome A := (m σ).1.

(** ** What the claims speak about *)

(** The configuration argument [open] computes from the content [d] of the
    wallet's configuration dict: the text of [d] without its [auto_remove]
    entry, or [None] when nothing else is left. *)
Definition backend_config (d : dict) : option json_text :=
  let d' := delete "auto_remove" d in
  if truthy (VDict d') then Some (json_dumps (VDict d')) else None.

(** The [config] arguments of the wallet-creating and session-opening calls
    of a trace. *)
Definition config_of (c : call) : option (option json_text) :=
  match c with
  | create_wallet _ _ _ config _ => Some config
  | open_wallet _ config _ => Some config
  | _ => None
  end.

Definition configs_sent (tr : list event) : list (option json_text) :=
  omap (λ ev, config_of (request ev)) tr.

(** The record [v] is the one of the identity [p]: its [did] and [verkey]
    entries are the DID and the verification key of [p]; further entries,
    such as [metadata], are free. *)
Definition lists_identity (v : value) (p : string * string) : Prop :=
  ∃ m : dict, v = VDict m ∧
              m !! "did" = Some (VStr p.1) ∧ m !! "verkey" = Some (VStr p.2).

(** [created] are the identities (DID, verification key) a wallet holds, in
    the order of their creation.  The value [v] lists them oldest first when
    it is a list of one record per identity, in that order. *)
Definition oldest_first (created : list (string * string)) (v : value)
    : Prop :=
  ∃ recs, v = VList recs ∧ Forall2 lists_identity recs created.

(** The lifecycle state of a wallet object.  The class does not store it; it
    is read off the trace: the object is [Open] when the last session call
    of its own that succeeded is an [open_wallet], and [Closed] before any
    and after a [close_wallet] that succeeded. *)
Inductive State : Type := Closed | Open.

Definition opens (ev : event) : bool :=
  match request ev, failure ev with
  | open_wallet _ _ _, None => true
  | _, _ => false
  end.

Definition closes (ev : event) : bool :=
  match request ev, failure ev with
  | close_wallet _, None => true
  | _, _ => false
  end.

Definition lifecycle_step (self : loc) (st : State) (ev : event) : State :=
  if bool_decide (issuer ev = self) then
    if opens ev then Open else if closes ev then Closed else st
  else st.

Definition lifecycle (self : loc) (tr : list event) : State :=
  fold_left (lifecycle_step self) tr Closed.

(** Whether a trace holds a request of [self] to delete wallet data. *)
Definition deletes (self : loc) (ev : event) : bool :=
  match request ev with
  | delete_wallet _ _ => bool_decide (issuer ev = self)
  | _ => false
  end.

(** The current identity of a wallet object. *)
Definition current {B} (σ : World B) (self : loc) : option (value * value) :=
  w ← wallets σ !! self; Some (_did w, _verkey w).

(** The methods a client may invoke on a wallet object. *)
Inductive method : Type :=
  | m_open
  | m_aenter
  | m_close
  | m_aexit
  | m_remove
  | m_create_did (did seed : option string) (cid : bool)
  | m_load_did (did : string)
  | m_stored_dids.

Section Clients.
Context {B : Type} (sdk : ∀ c : call, B → outcome (reply c) * B).

Definition invoke (m : method) (self : loc) : M B unit :=
  match m with
  | m_open => open sdk self;; mret tt
  | m_aenter => __aenter__ sdk self;; mret tt
  | m_close => close sdk self
  | m_aexit => __aexit__ sdk self
  | m_remove => remove sdk self
  | m_create_did i s c => create_did sdk self i s c;; mret tt
  | m_load_did i => load_did sdk self i;; mret tt
  | m_stored_dids => stored_dids sdk self;; mret tt
  end.

(** The worlds a client can bring about: it builds and updates dicts,
    constructs wallets over them and invokes their methods, whatever the
    outcome; in between the SDK's state may change by other means. *)
Inductive reachable : World B → Prop :=
  | reach_start b : reachable (empty_world b)
  | reach_new_dict σ d :
      reachable σ → reachable (world_after (new_dict d) σ)
  | reach_write_dict σ l d :
      reachable σ → is_Some (dicts σ !! l) →
      reachable (world_after (write_dict l d) σ)
  | reach_init σ p n c :
      reachable σ → (∀ l, c = Some l → is_Some (dicts σ !! l)) →
      reachable (world_after (__init__ p n c) σ)
  | reach_invoke σ m self :
      reachable σ → is_Some (wallets σ !! self) →
      reachable (world_after (invoke m self) σ)
  | reach_backend σ b :
      reachable σ →
      reachable
        {| wallets := wallets σ; dicts := dicts σ; records := records σ;
           backend := b; calls := calls σ |}.

(** The claimed invariant of the session handle. *)
Definition handle_iff_open (σ : World B) (self : loc) : Prop :=
  ∀ w, wallets σ !! self = Some w →
       (_handle w ≠ None ↔ lifecycle self (calls σ) = Open).
End Clients.

(** ** Summaries used in the proofs *)

(** What [open] raises when [create_wallet] raised [e] and the wallet does not
    exist already: the handler of an [IndyError] fails on [self.e] while it
    formats its log message, any other exception passes through. *)
Definition create_fatal (e : exn) : option exn :=
  match e with
  | IndyError code =>
      if code =? ErrorCode.WalletAlreadyExistsError then None
      else Some (AttributeError "Wallet" "e")
  | _ => Some e
  end.

(** What [remove] makes of the outcome of [delete_wallet]: the handler of an
    [Exception] fails on the name [sys], which the module never imports. *)
Definition remove_outcome (r : outcome unit) : outcome unit :=
  match r with
  | Returned _ => Returned tt
  | Raised e => if is_Exception e then Raised (NameError "sys") else Raised e
  end.

(** [self.cfg.get('auto_remove', False)] on the configuration [d]. *)
Definition auto_remove (d : dict) : value :=
  match d !! "auto_remove" with Some v => v | None => VBool false end.

(** The fields of a wallet object that only [__init__] and [open] assign. *)
Definition fixed (w : Wallet) : string * string * option Z * loc :=
  (_pool_name w, _name w, _handle w, _cfg w).

Section Frames.
Context {B : Type}.

(** A computation preserves [R] when [R] relates the world it starts in to
    the world it leaves, whatever its outcome. *)
Definition preserves (R : relation (World B)) {A} (m : M B A) : Prop :=
  ∀ σ, R σ (m σ).2.

(** No object of the store changes. *)
Definition same_store (σ σ' : World B) : Prop :=
  wallets σ' = wallets σ ∧ dicts σ' = dicts σ.

(** No wallet object appears or changes its [fixed] fields, no dict object
    disappears, and the new SDK calls are [self]'s and open no session. *)
Definition steady (self : loc) (σ σ' : World B) : Prop :=
  (∀ l, fixed <$> wallets σ' !! l = fixed <$> wallets σ !! l) ∧
  dom (dicts σ) ⊆ dom (dicts σ') ∧
  ∃ evs, calls σ' = calls σ ++ evs ∧
         Forall (λ ev, issuer ev = self ∧ opens ev = false) evs.

(** What holds in every reachable world: the configuration of a wallet
    exists, SDK calls were issued by wallets, and a wallet that is [Open]
    has a handle. *)
Definition consistent (σ : World B) : Prop :=
  (∀ l w, wallets σ !! l = Some w → is_Some (dicts σ !! _cfg w)) ∧
  Forall (λ ev, is_Some (wallets σ !! issuer ev)) (calls σ) ∧
  (∀ l w, wallets σ !! l = Some w →
          lifecycle l (calls σ) = Open → is_Some (_handle w)).
End Frames.

(** ** Scenarios

    The wallet of the repository's tests: [Wallet(pool, 'my-wallet', cfg)]
    constructed in a world without other objects.  The wallet object is at
    location 1, and so is its configuration dict. *)
Definition constructed {B} (b : B) (cfg : option dict) : World B :=
  world_after
    (match cfg with
     | Some d => c ← new_dict d; __init__ "pool" "my-wallet" (Some c)
     | None => __init__ "pool" "my-wallet" None
     end)
    (empty_world b).

(** The in-memory SDK after somebody created the wallet ['my-wallet']. *)
Definition mem_existing : MemSDK :=
  (mem_sdk (create_wallet "pool" "my-wallet" None None None) mem_empty).2.

(** The in-memory SDK when the wallet storage refuses deletions. *)
Definition mem_read_only : MemSDK :=
  {| stored := ∅; sessions := ∅; next_handle := 1;
     delete_fault := Some (IndyError ErrorCode.CommonIOError) |}.

(** C5 as the specification words it: every configuration argument [open]
    sends is the text of the configuration without [auto_remove]. *)
Definition sends_stripped_config {B}
    (sdk : ∀ c : call, B → outcome (reply c) * B) (σ : World B) (self : loc)
    : Prop :=
  ∀ w d config,
    wallets σ !! self = Some w →
    dicts σ !! _cfg w = Some d →
    config ∈ configs_sent
               (drop (length (calls σ)) (calls (world_after (open sdk self) σ))) →
    config = Some (json_dumps (VDict (delete "auto_remove" d))).

(** ** Further relations between worlds *)

(** The fields of a wallet object that only [__init__] assigns. *)
Definition names (w : Wallet) : string * string * loc :=
  (_pool_name w, _name w, _cfg w).

Section Effects.
Context {B : Type}.

(** Only the wallet object [self] may have changed, and no wallet object has
    changed its [names]. *)
Definition own (self : loc) (σ σ' : World B) : Prop :=
  (∀ l, l ≠ self → wallets σ' !! l = wallets σ !! l) ∧
  (∀ l, names <$> wallets σ' !! l = names <$> wallets σ !! l).

(** No dict object has changed or appeared. *)
Definition same_dicts (σ σ' : World B) : Prop := dicts σ' = dicts σ.

(** A world without its log. *)
Definition log_free (σ : World B)
    : gmap loc Wallet * gmap loc dict * B * list event :=
  (wallets σ, dicts σ, backend σ, calls σ).

(** A world with another log. *)
Definition with_records (logs : list log_record) (σ : World B) : World B :=
  {| wallets := wallets σ; dicts := dicts σ; records := logs;
     backend := backend σ; calls := calls σ |}.
End Effects.

(** Whether the wallet object [self] ever opened a session: the trace holds
    an [open_wallet] of its own that succeeded. *)
Definition ever_opened (self : loc) (tr : list event) : Prop :=
  Exists (λ ev, issuer ev = self ∧ opens ev = true) tr.

(** ** Further SDK stand-ins *)

(** An SDK that creates wallets and fails with [e] in every other call, as
    when no session can be opened. *)
Definition sessionless_sdk (e : exn) (c : call) (b : unit)
    : outcome (reply c) * unit :=
  match c return outcome (reply c) * unit with
  | create_wallet _ _ _ _ _ => (Returned tt, b)
  | _ => (Raised e, b)
  end.

(** An SDK that answers every [get_my_did_with_meta] with the text [t] and
    fails with [WalletInvalidHandle] in every other call. *)
Definition answering_sdk (t : json_text) (c : call) (b : unit)
    : outcome (reply c) * unit :=
  match c return outcome (reply c) * unit with
  | get_my_did_with_meta _ _ => (Returned t, b)
  | _ => (Raised (IndyError ErrorCode.WalletInvalidHandle), b)
  end.

(** * Properties *)

Section Theory.
Context {B : Type} (sdk : ∀ c : call, B → outcome (reply c) * B).
Implicit Types (σ : World B) (self l : loc) (w : Wallet) (d : dict).

(** ** Running computations step by step *)

Lemma truthy_dict d : truthy (VDict d) = false ↔ d = ∅.
Proof.
  simpl. rewrite <- map_to_list_empty_iff.
  destruct (map_to_list d); split; congruence.
Qed.

Lemma run_bind {A C} (m : M B A) (k : A → M B C) σ :
  (m ≫= k) σ =
  match m σ with
  | (Returned a, σ') => k a σ'
  | (Raised e, σ') => (Raised e, σ')
  end.
Proof. reflexivity. Qed.

Lemma run_ret {A} (a : A) σ : (mret a : M B A) σ = (Returned a, σ).
Proof. reflexivity. Qed.

Lemma run_raise {A} e σ : (raise e : M B A) σ = (Raised e, σ).
Proof. reflexivity. Qed.

Lemma run_try {A} (body : M B A) handler σ :
  try_except body handler σ =
  match body σ with
  | (Returned a, σ') => (Returned a, σ')
  | (Raised e, σ') => handler e σ'
  end.
Proof. reflexivity. Qed.

Lemma run_log lv tpl vs σ :
  log lv tpl vs σ =
  (Returned tt,
   {| wallets := wallets σ; dicts := dicts σ;
      records := records σ ++ [Log lv tpl vs];
      backend := backend σ; calls := calls σ |}).
Proof. reflexivity. Qed.

Lemma run_get_wallet self σ w :
  wallets σ !! self = Some w → get_wallet self σ = (Returned w, σ).
Proof. intros H. unfold get_wallet. by rewrite H. Qed.

Lemma run_update_wallet self f σ w :
  wallets σ !! self = Some w →
  update_wallet self f σ =
  (Returned tt,
   {| wallets := <[self := f w]> (wallets σ); dicts := dicts σ;
      records := records σ; backend := backend σ; calls := calls σ |}).
Proof. intros H. unfold update_wallet. by rewrite H. Qed.

Lemma run_read_dict l σ d :
  dicts σ !! l = Some d → read_dict l σ = (Returned d, σ).
Proof. intros H. unfold read_dict. by rewrite H. Qed.

Lemma run_write_dict l d σ :
  write_dict l d σ =
  (Returned tt,
   {| wallets := wallets σ; dicts := <[l := d]> (dicts σ);
      records := records σ; backend := backend σ; calls := calls σ |}).
Proof. reflexivity. Qed.

Lemma run_new_dict d σ :
  new_dict d σ =
  (Returned (fresh (dom (dicts σ))),
   {| wallets := wallets σ;
      dicts := <[fresh (dom (dicts σ)) := d]> (dicts σ);
      records := records σ; backend := backend σ; calls := calls σ |}).
Proof. reflexivity. Qed.

Lemma run_sdk_call self c σ r b :
  sdk c (backend σ) = (r, b) →
  sdk_call sdk self c σ =
  (r,
   {| wallets := wallets σ; dicts := dicts σ; records := records σ;
      backend := b; calls := calls σ ++ [Event self c (failure_of r)] |}).
Proof. intros H. unfold sdk_call. by rewrite H. Qed.

Ltac proj := cbn [wallets dicts records backend calls fst snd].

Ltac lookup_tac :=
  proj;
  first [ eassumption
        | rewrite lookup_insert_eq; reflexivity
        | rewrite lookup_insert_ne by eauto; eassumption ].

Ltac run1 :=
  first
    [ rewrite run_bind
    | rewrite run_ret
    | rewrite run_try
    | rewrite run_log
    | rewrite run_raise
    | rewrite run_new_dict
    | rewrite run_write_dict
    | erewrite run_get_wallet by lookup_tac
    | erewrite run_read_dict by lookup_tac
    | erewrite run_update_wallet by lookup_tac
    | erewrite run_sdk_call by (proj; eassumption) ];
  cbn beta iota; proj.

Ltac run := repeat run1.

(** The log grows by some records; which ones is left open. *)
Ltac close_logs := proj; rewrite <- ?app_assoc; eexists; reflexivity.

Lemma run_getattr_e self σ w :
  wallets σ !! self = Some w →
  getattr self "e" σ = (Raised (AttributeError "Wallet" "e"), σ).
Proof. intros Hw. unfold getattr. run. reflexivity. Qed.

Lemma run_lookup_sys σ :
  lookup_global "sys" σ = (Raised (NameError "sys"), σ).
Proof. reflexivity. Qed.

(** ** open *)

Ltac open_unfold :=
  unfold open, cfg, json_roundtrip, dict_contains, dict_pop, pool_name,
    name, handle, dumps_or_None;
  cbn [json_loads json_dumps encoded].

(** Runs the part of [open] before the [try]: afterwards the copy of the
    configuration, without [auto_remove], sits at a new location. *)
Ltac open_prefix Hk :=
  open_unfold; run;
  first
    [ rewrite bool_decide_eq_true_2 by (rewrite Hk; eauto);
      run; rewrite Hk; run; rewrite insert_insert_eq
    | rewrite bool_decide_eq_false_2 by (rewrite Hk; apply is_Some_None);
      run ].

(** [open] when the wallet could be created or exists already: the session
    is opened, and its handle kept if that succeeds. *)
Lemma open_proceeds self σ w d (r1 : outcome unit) b1 (r2 : outcome Z) b2 :
  wallets σ !! self = Some w →
  dicts σ !! _cfg w = Some d →
  sdk (create_wallet (_pool_name w) (_name w) None (backend_config d) None)
    (backend σ) = (r1, b1) →
  r1 = Returned tt ∨
    r1 = Raised (IndyError ErrorCode.WalletAlreadyExistsError) →
  sdk (open_wallet (_name w) (backend_config d) None) b1 = (r2, b2) →
  ∃ logs,
    open sdk self σ =
    (match r2 with Returned _ => Returned self | Raised e => Raised e end,
     {| wallets :=
          match r2 with
          | Returned h => <[self := set__handle (Some h) w]> (wallets σ)
          | Raised _ => wallets σ
          end;
        dicts :=
          <[fresh (dom (dicts σ)) := delete "auto_remove" d]> (dicts σ);
        records := records σ ++ logs;
        backend := b2;
        calls :=
          calls σ ++
          [Event self
             (create_wallet (_pool_name w) (_name w) None
                (backend_config d) None) (failure_of r1);
           Event self (open_wallet (_name w) (backend_config d) None)
             (failure_of r2)] |}).
Proof.
  intros Hw Hd H1 Hr1 H2. unfold backend_config in *.
  destruct (d !! "auto_remove") as [v|] eqn:Hk;
    [|rewrite (delete_id _ _ Hk) in H1, H2 |- *]; open_prefix Hk.
  all: destruct Hr1 as [-> | ->]; run;
    cbn [Z.eqb Pos.eqb ErrorCode.WalletAlreadyExistsError]; run.
  all: destruct r2 as [h|e]; run; cbn [failure_of]; close_logs.
Qed.

Lemma open_aborts self σ w d e e' b1 :
  wallets σ !! self = Some w →
  dicts σ !! _cfg w = Some d →
  sdk (create_wallet (_pool_name w) (_name w) None (backend_config d) None)
    (backend σ) = (Raised e, b1) →
  create_fatal e = Some e' →
  ∃ logs,
    open sdk self σ =
    (Raised e',
     {| wallets := wallets σ;
        dicts :=
          <[fresh (dom (dicts σ)) := delete "auto_remove" d]> (dicts σ);
        records := records σ ++ logs;
        backend := b1;
        calls :=
          calls σ ++
          [Event self
             (create_wallet (_pool_name w) (_name w) None
                (backend_config d) None) (Some e)] |}).
Proof.
  intros Hw Hd H1 He. unfold backend_config in *.
  destruct (d !! "auto_remove") as [v|] eqn:Hk;
    [|rewrite (delete_id _ _ Hk) in H1 |- *]; open_prefix Hk.
  all: destruct e; simpl in He; try (injection He as <-); run;
    cbn [failure_of]; try close_logs.
  all: destruct (error_code =? _); [discriminate|injection He as <-].
  all: run; erewrite run_getattr_e by lookup_tac; run; close_logs.
Qed.

(** ** remove and close *)

Lemma remove_run self σ w (r : outcome unit) b :
  wallets σ !! self = Some w →
  sdk (delete_wallet (_name w) None) (backend σ) = (r, b) →
  ∃ logs,
    remove sdk self σ =
    (remove_outcome r,
     {| wallets := wallets σ; dicts := dicts σ;
        records := records σ ++ logs; backend := b;
        calls :=
          calls σ ++
          [Event self (delete_wallet (_name w) None) (failure_of r)] |}).
Proof.
  intros Hw H. unfold remove, name. run.
  destruct r as [[]|e]; run; [close_logs|].
  cbn [remove_outcome]. destruct (is_Exception e); run; [|close_logs].
  rewrite run_lookup_sys. run. close_logs.
Qed.

Lemma close_session_fails self σ w e b :
  wallets σ !! self = Some w →
  sdk (close_wallet (_handle w)) (backend σ) = (Raised e, b) →
  ∃ logs,
    close sdk self σ =
    (Raised e,
     {| wallets := wallets σ; dicts := dicts σ;
        records := records σ ++ logs; backend := b;
        calls :=
          calls σ ++ [Event self (close_wallet (_handle w)) (Some e)] |}).
Proof.
  intros Hw H. unfold close, handle. run. cbn [failure_of]. close_logs.
Qed.

Lemma close_keeps self σ w d b :
  wallets σ !! self = Some w →
  dicts σ !! _cfg w = Some d →
  sdk (close_wallet (_handle w)) (backend σ) = (Returned tt, b) →
  truthy (auto_remove d) = false →
  ∃ logs,
    close sdk self σ =
    (Returned tt,
     {| wallets := wallets σ; dicts := dicts σ;
        records := records σ ++ logs; backend := b;
        calls := calls σ ++ [Event self (close_wallet (_handle w)) None] |}).
Proof.
  intros Hw Hd H Ht. unfold close, handle, cfg, dict_get. run.
  fold (auto_remove d). rewrite Ht. run. cbn [failure_of]. close_logs.
Qed.

Lemma close_removes self σ w d b (r : outcome unit) b' :
  wallets σ !! self = Some w →
  dicts σ !! _cfg w = Some d →
  sdk (close_wallet (_handle w)) (backend σ) = (Returned tt, b) →
  truthy (auto_remove d) = true →
  sdk (delete_wallet (_name w) None) b = (r, b') →
  ∃ logs,
    close sdk self σ =
    (remove_outcome r,
     {| wallets := wallets σ; dicts := dicts σ;
        records := records σ ++ logs; backend := b';
        calls :=
          calls σ ++
          [Event self (close_wallet (_handle w)) None;
           Event self (delete_wallet (_name w) None) (failure_of r)] |}).
Proof.
  intros Hw Hd H Ht H'. unfold close, handle, cfg, dict_get. run.
  fold (auto_remove d). rewrite Ht.
  edestruct (remove_run self) as [logs ->]; [lookup_tac|proj; exact H'|].
  destruct r as [[]|e]; cbn [remove_outcome]; [|destruct (is_Exception e)];
    run; cbn [failure_of]; close_logs.
Qed.

(** ** Identities *)

Lemma create_did_run self σ w i s c (r : outcome (string * string)) b :
  wallets σ !! self = Some w →
  sdk (create_and_store_my_did (_handle w)
         (json_dumps (VDict (identity_config i s c)))) (backend σ)
    = (r, b) →
  ∃ logs,
    create_did sdk self i s c σ =
    (match r with
     | Returned p => Returned (VStr p.1)
     | Raised e => Raised e
     end,
     {| wallets :=
          match r with
          | Returned p =>
              <[self := set__verkey (VStr p.2) (set__did (VStr p.1) w)]>
                (wallets σ)
          | Raised _ => wallets σ
          end;
        dicts := dicts σ;
        records := records σ ++ logs;
        backend := b;
        calls :=
          calls σ ++
          [Event self
             (create_and_store_my_did (_handle w)
                (json_dumps (VDict (identity_config i s c))))
             (failure_of r)] |}).
Proof.
  intros Hw H. unfold create_did. run.
  destruct r as [[dd vk]|e]; run; cbn [failure_of].
  - rewrite insert_insert_eq. close_logs.
  - exists []. by rewrite app_nil_r.
Qed.

Lemma load_did_run self σ w i t b (m : dict) v1 v2 :
  wallets σ !! self = Some w →
  sdk (get_my_did_with_meta (_handle w) i) (backend σ) = (Returned t, b) →
  json_loads t = VDict m →
  m !! "did" = Some v1 →
  m !! "verkey" = Some v2 →
  ∃ logs,
    load_did sdk self i σ =
    (Returned v1,
     {| wallets := <[self := set__verkey v2 (set__did v1 w)]> (wallets σ);
        dicts := dicts σ;
        records := records σ ++ logs;
        backend := b;
        calls :=
          calls σ ++
          [Event self (get_my_did_with_meta (_handle w) i) None] |}).
Proof.
  intros Hw H Ht H1 H2. unfold load_did, subscript. run.
  rewrite Ht, H1. run. rewrite H2. run.
  rewrite insert_insert_eq. cbn [failure_of]. close_logs.
Qed.

Lemma stored_dids_run self σ w (r : outcome json_text) b :
  wallets σ !! self = Some w →
  sdk (list_my_dids_with_meta (_handle w)) (backend σ) = (r, b) →
  ∃ logs,
    stored_dids sdk self σ =
    (match r with
     | Returned t => Returned (json_loads t)
     | Raised e => Raised e
     end,
     {| wallets := wallets σ; dicts := dicts σ;
        records := records σ ++ logs; backend := b;
        calls :=
          calls σ ++
          [Event self (list_my_dids_with_meta (_handle w)) (failure_of r)]
     |}).
Proof.
  intros Hw H. unfold stored_dids. run.
  destruct r as [t|e]; run; cbn [failure_of]; [close_logs|].
  exists []. by rewrite app_nil_r.
Qed.

(** ** Frames *)

#[local] Instance same_store_preorder : PreOrder (@same_store B).
Proof.
  split; [by split|]. intros σ1 σ2 σ3 [? ?] [? ?]. split; congruence.
Qed.

#[local] Instance steady_preorder self : PreOrder (@steady B self).
Proof.
  split.
  - intros σ. split_and!; [done|done|]. exists []. by rewrite app_nil_r.
  - intros σ1 σ2 σ3 (Hw1 & Hd1 & evs1 & Hc1 & H1)
      (Hw2 & Hd2 & evs2 & Hc2 & H2).
    split_and!.
    + intros l. by rewrite Hw2.
    + set_solver.
    + exists (evs1 ++ evs2). split; [by rewrite Hc2, Hc1, app_assoc|].
      by apply Forall_app.
Qed.

Section Preserves.
Context (R : relation (World B)) `{!PreOrder R}.

Lemma preserves_ret {A} (a : A) : preserves R (mret a : M B A).
Proof. intros σ. reflexivity. Qed.

Lemma preserves_raise {A} e : preserves R (raise e : M B A).
Proof. intros σ. reflexivity. Qed.

Lemma preserves_bind {A C} (m : M B A) (k : A → M B C) :
  preserves R m → (∀ a, preserves R (k a)) → preserves R (m ≫= k).
Proof.
  intros Hm Hk σ. rewrite run_bind. specialize (Hm σ).
  destruct (m σ) as [[a|e] σ']; [|done].
  etransitivity; [exact Hm|apply Hk].
Qed.

Lemma preserves_try {A} (body : M B A) handler :
  preserves R body → (∀ e, preserves R (handler e)) →
  preserves R (try_except body handler).
Proof.
  intros Hm Hk σ. rewrite run_try. specialize (Hm σ).
  destruct (body σ) as [[a|e] σ']; [done|].
  etransitivity; [exact Hm|apply Hk].
Qed.

Lemma preserves_get_wallet self : preserves R (get_wallet self).
Proof. intros σ. unfold get_wallet. by destruct (wallets σ !! self). Qed.

Lemma preserves_read_dict l : preserves R (read_dict l).
Proof. intros σ. unfold read_dict. by destruct (dicts σ !! l). Qed.

Lemma preserves_lookup_global x : preserves R (lookup_global x).
Proof. intros σ. unfold lookup_global. by case_bool_decide. Qed.
End Preserves.

Lemma same_store_log lv tpl vs : preserves same_store (log lv tpl vs : M B unit).
Proof. by intros σ. Qed.

Lemma same_store_sdk_call self c : preserves same_store (sdk_call sdk self c).
Proof. intros σ. unfold sdk_call. by destruct (sdk c (backend σ)). Qed.

Lemma steady_log self lv tpl vs : preserves (steady self) (log lv tpl vs : M B unit).
Proof.
  intros σ. split_and!; [done|done|]. exists []. by rewrite app_nil_r.
Qed.

Lemma steady_sdk_call self c :
  config_of c = None ∨ (∃ p n x cf cr, c = create_wallet p n x cf cr) →
  preserves (steady self) (sdk_call sdk self c).
Proof.
  intros Hc σ. unfold sdk_call. destruct (sdk c (backend σ)) as [r b].
  split_and!; [done|done|]. eexists. split; [done|].
  repeat constructor. unfold opens. simpl.
  destruct Hc as [Hc|(?&?&?&?&?&->)]; [by destruct c|done].
Qed.

Lemma steady_update_wallet self l f :
  (∀ w, fixed (f w) = fixed w) →
  preserves (steady self) (update_wallet l f : M B unit).
Proof.
  intros Hf σ. unfold update_wallet.
  destruct (wallets σ !! l) as [w|] eqn:Hw; [|reflexivity].
  split_and!; [|done|exists []; by rewrite app_nil_r].
  intros l'. cbn. destruct (decide (l = l')) as [<-|].
  - by rewrite lookup_insert_eq, Hw; cbn; rewrite Hf.
  - by rewrite lookup_insert_ne.
Qed.

Ltac frame :=
  repeat first
    [ apply preserves_ret; typeclasses eauto
    | apply preserves_raise; typeclasses eauto
    | apply preserves_get_wallet; typeclasses eauto
    | apply preserves_read_dict; typeclasses eauto
    | apply preserves_lookup_global; typeclasses eauto
    | apply same_store_log | exact (same_store_sdk_call _ _)
    | apply steady_log
    | refine (steady_sdk_call _ _ _); left; reflexivity
    | apply steady_update_wallet; reflexivity
    | apply preserves_bind; [typeclasses eauto| |intros ?]
    | apply preserves_try; [typeclasses eauto| |intros ?]
    | progress (cbv beta)
    | case_match ].

Lemma same_store_remove self : preserves same_store (remove sdk self).
Proof. unfold remove, name. frame. Qed.

Lemma same_store_close self : preserves same_store (close sdk self).
Proof.
  unfold close, handle, cfg, dict_get. frame.
Qed.

Lemma same_store_stored_dids self :
  preserves same_store (stored_dids sdk self).
Proof. unfold stored_dids. frame. Qed.

Lemma steady_remove self : preserves (steady self) (remove sdk self).
Proof. unfold remove, name. frame. Qed.

Lemma steady_close self : preserves (steady self) (close sdk self).
Proof.
  unfold close, handle, cfg, dict_get. frame.
Qed.

Lemma steady_create_did self i s c :
  preserves (steady self) (create_did sdk self i s c).
Proof. unfold create_did. frame. Qed.

Lemma steady_load_did self i : preserves (steady self) (load_did sdk self i).
Proof. unfold load_did, subscript. frame. Qed.

Lemma steady_stored_dids self : preserves (steady self) (stored_dids sdk self).
Proof. unfold stored_dids. frame. Qed.

(** ** The lifecycle read off the trace *)

Lemma lifecycle_app self tr evs :
  lifecycle self (tr ++ evs) =
  fold_left (lifecycle_step self) evs (lifecycle self tr).
Proof. unfold lifecycle. by rewrite fold_left_app. Qed.

Lemma fold_no_open self evs st :
  Forall (λ ev, issuer ev = self → opens ev = false) evs →
  fold_left (lifecycle_step self) evs st = Open → st = Open.
Proof.
  revert st. induction evs as [|ev evs IH]; intros st Hall; [done|].
  inversion_clear Hall as [|? ? Hev Hevs]. cbn. intros H.
  apply IH in H; [|done]. unfold lifecycle_step in H.
  case_bool_decide; [|done]. rewrite Hev in H by done.
  by destruct (closes ev).
Qed.

Lemma lifecycle_no_open self tr evs :
  Forall (λ ev, issuer ev = self → opens ev = false) evs →
  lifecycle self (tr ++ evs) = Open → lifecycle self tr = Open.
Proof. rewrite lifecycle_app. apply fold_no_open. Qed.

Lemma lifecycle_stranger self tr :
  Forall (λ ev, issuer ev ≠ self) tr → lifecycle self tr = Closed.
Proof.
  intros H. destruct (lifecycle self tr) eqn:E; [done|].
  change tr with ([] ++ tr) in E. apply lifecycle_no_open in E; [done|].
  eapply Forall_impl; [exact H|]. by intros ev ? ?.
Qed.

(** ** The constructor *)

Lemma init_run p n c σ :
  (∀ l, c = Some l → is_Some (dicts σ !! l)) →
  ∃ logs stored ds,
    __init__ p n c σ =
    (Returned (fresh (dom (wallets σ))),
     {| wallets :=
          <[fresh (dom (wallets σ)) :=
              {| _pool_name := p; _name := n; _handle := None;
                 _cfg := stored; _did := VNone; _verkey := VNone |}]>
            (wallets σ);
        dicts := ds;
        records := records σ ++ logs;
        backend := backend σ;
        calls := calls σ |}) ∧
    is_Some (ds !! stored) ∧ dom (dicts σ) ⊆ dom ds.
Proof.
  intros Hc. unfold __init__, new_wallet.
  destruct c as [l|]; [destruct (Hc l eq_refl) as [d Hd]|].
  - run. destruct (truthy (VDict d)); run.
    + eexists _, l, _. rewrite <- !app_assoc. split_and!; [done|eauto|done].
    + eexists _, _, _. rewrite <- !app_assoc.
      split_and!; [done|by rewrite lookup_insert_eq|set_solver].
  - run. eexists _, _, _. rewrite <- !app_assoc.
    split_and!; [done|by rewrite lookup_insert_eq|set_solver].
Qed.

(** ** What open does to the store and the trace *)

Lemma open_cases self σ w d :
  wallets σ !! self = Some w →
  dicts σ !! _cfg w = Some d →
  let σ' := (open sdk self σ).2 in
  dicts σ' = <[fresh (dom (dicts σ)) := delete "auto_remove" d]> (dicts σ) ∧
  ∃ evs, calls σ' = calls σ ++ evs ∧
         Forall (λ ev, issuer ev = self) evs ∧
         ((wallets σ' = wallets σ ∧ Forall (λ ev, opens ev = false) evs) ∨
          (∃ h, wallets σ' = <[self := set__handle (Some h) w]> (wallets σ))).
Proof.
  intros Hw Hd.
  destruct (sdk (create_wallet (_pool_name w) (_name w) None
                   (backend_config d) None) (backend σ))
    as [r1 b1] eqn:H1.
  destruct (sdk (open_wallet (_name w) (backend_config d) None) b1)
    as [r2 b2] eqn:H2.
  assert (r1 = Returned tt ∨
          r1 = Raised (IndyError ErrorCode.WalletAlreadyExistsError) ∨
          ∃ e e', r1 = Raised e ∧ create_fatal e = Some e')
    as [Hr|[Hr|(e & e' & -> & He)]].
  { destruct r1 as [[]|e]; [by left|]. right.
    destruct (create_fatal e) as [e'|] eqn:He; [right; eauto|left].
    destruct e; try discriminate. cbn in He.
    destruct (error_code =? _) eqn:E; [|done].
    by apply Z.eqb_eq in E as ->. }
  1,2: edestruct (open_proceeds self σ) as [logs ->]; eauto; cbn;
    (split; [done|]); eexists; (split; [done|]);
    (split; [by repeat constructor|]);
    (destruct r2; [right; eauto|left; split; [done|]]);
    subst r1; by repeat constructor.
  edestruct (open_aborts self σ) as [logs ->]; eauto. cbn.
  split; [done|]. eexists. split; [done|]. split; [by repeat constructor|].
  left. split; [done|]. by repeat constructor.
Qed.

(** ** Consistency of reachable worlds *)

Lemma consistent_steady self σ σ' :
  consistent σ → steady self σ σ' → is_Some (wallets σ !! self) →
  consistent σ'.
Proof.
  intros (Hcfg & Hiss & Hopen) (Hw & Hd & evs & Hc & Hevs) Hself.
  assert (∀ l w', wallets σ' !! l = Some w' →
                  ∃ w, wallets σ !! l = Some w ∧ fixed w' = fixed w) as Hback.
  { intros l w' Hl. specialize (Hw l). rewrite Hl in Hw.
    destruct (wallets σ !! l) as [w|]; [|done]. exists w. split; [done|].
    cbn in Hw. congruence. }
  assert (∀ l, is_Some (wallets σ !! l) → is_Some (wallets σ' !! l)) as Hfwd.
  { intros l [w Hl]. specialize (Hw l). rewrite Hl in Hw.
    destruct (wallets σ' !! l); [eauto|done]. }
  split_and!.
  - intros l w' Hl. destruct (Hback l w' Hl) as (w & Hl0 & Hf).
    injection Hf as _ _ _ ->. apply elem_of_dom, Hd, elem_of_dom. eauto.
  - rewrite Hc. apply Forall_app. split.
    + eapply Forall_impl; [exact Hiss|]. intros ev. apply Hfwd.
    + eapply Forall_impl; [exact Hevs|]. intros ev [-> _]. by apply Hfwd.
  - intros l w' Hl Hlife. destruct (Hback l w' Hl) as (w & Hl0 & Hf).
    injection Hf as _ _ -> _. apply (Hopen l w Hl0).
    rewrite Hc in Hlife. eapply lifecycle_no_open; [|exact Hlife].
    eapply Forall_impl; [exact Hevs|]. by intros ev [_ ?] _.
Qed.

Lemma consistent_log σ logs :
  consistent σ →
  consistent
    {| wallets := wallets σ; dicts := dicts σ; records := logs;
       backend := backend σ; calls := calls σ |}.
Proof. done. Qed.

Lemma consistent_open self σ :
  consistent σ → is_Some (wallets σ !! self) →
  consistent (open sdk self σ).2.
Proof.
  intros Hcons [w Hw]. pose proof Hcons as (Hcfg & Hiss & Hopen).
  destruct (Hcfg self w Hw) as [d Hd].
  destruct (open_cases self σ w d Hw Hd) as (Hds & evs & Hc & Hmine & Hcase).
  assert (dom (dicts σ) ⊆ dom (dicts (open sdk self σ).2)) as Hsub.
  { rewrite Hds, dom_insert_L. apply union_subseteq_r. }
  destruct Hcase as [[Hws Hno]|[h Hws]].
  - apply (consistent_steady self σ); [done| |eauto].
    split_and!; [by rewrite Hws|done|].
    exists evs. split; [done|]. apply Forall_forall. intros ev Hev.
    rewrite Forall_forall in Hmine, Hno. eauto.
  - split_and!.
    + intros l w' Hl. rewrite Hws in Hl.
      apply elem_of_dom, Hsub, elem_of_dom.
      destruct (decide (self = l)) as [<-|Hne].
      * rewrite lookup_insert_eq in Hl. injection Hl as <-. cbn. eauto.
      * rewrite lookup_insert_ne in Hl by done. eauto.
    + rewrite Hc, Hws. apply Forall_app. split.
      * eapply Forall_impl; [exact Hiss|]. intros ev Hev. cbn in Hev.
        destruct (decide (self = issuer ev)) as [<-|Hne];
          [by rewrite lookup_insert_eq|by rewrite lookup_insert_ne].
      * eapply Forall_impl; [exact Hmine|]. intros ev ->.
        by rewrite lookup_insert_eq.
    + intros l w' Hl Hlife. rewrite Hws in Hl.
      destruct (decide (self = l)) as [<-|Hne].
      * rewrite lookup_insert_eq in Hl. injection Hl as <-. cbn. eauto.
      * rewrite lookup_insert_ne in Hl by done. apply (Hopen l w' Hl).
        rewrite Hc in Hlife. eapply lifecycle_no_open; [|exact Hlife].
        eapply Forall_impl; [exact Hmine|]. intros ev -> ?. done.
Qed.

Lemma consistent_init p n c σ :
  consistent σ → (∀ l, c = Some l → is_Some (dicts σ !! l)) →
  consistent (__init__ p n c σ).2.
Proof.
  intros (Hcfg & Hiss & Hopen) Hc.
  destruct (init_run p n c σ Hc) as (logs & stored & ds & -> & Hst & Hsub).
  pose proof (is_fresh (dom (wallets σ))) as Hfresh.
  rewrite not_elem_of_dom in Hfresh. proj. split_and!; proj.
  - intros l w' Hl. destruct (decide (fresh (dom (wallets σ)) = l)) as [<-|].
    + rewrite lookup_insert_eq in Hl. by injection Hl as <-.
    + rewrite lookup_insert_ne in Hl by done.
      apply elem_of_dom, Hsub, elem_of_dom. eauto.
  - eapply Forall_impl; [exact Hiss|]. intros ev Hev. cbn in Hev.
    destruct (decide (fresh (dom (wallets σ)) = issuer ev)) as [<-|];
      [by rewrite lookup_insert_eq|by rewrite lookup_insert_ne].
  - intros l w' Hl Hlife.
    destruct (decide (fresh (dom (wallets σ)) = l)) as [<-|].
    + rewrite lifecycle_stranger in Hlife; [done|].
      eapply Forall_impl; [exact Hiss|]. intros ev [x Hx] Heq. cbn in Hx.
      congruence.
    + rewrite lookup_insert_ne in Hl by done. eauto.
Qed.

Lemma consistent_invoke m self σ :
  consistent σ → is_Some (wallets σ !! self) →
  consistent (invoke sdk m self σ).2.
Proof.
  intros Hcons Hself.
  assert (∀ {A} (f : M B A),
            consistent (f σ).2 → consistent ((f ≫= λ _, mret tt) σ).2) as Hret.
  { intros A f. rewrite run_bind. by destruct (f σ) as [[a|e] σ']. }
  destruct m; cbn [invoke].
  - by apply Hret, consistent_open.
  - apply Hret. unfold __aenter__. run.
    match goal with |- context [open sdk self ?σ1] =>
      pose proof (consistent_open self σ1 (consistent_log σ _ Hcons) Hself)
        as H; destruct (open sdk self σ1) as [[a|e] σ'] end; run; exact H.
  - eapply consistent_steady; [done|apply steady_close|done].
  - eapply consistent_steady; [done| |done].
    unfold __aexit__. apply preserves_bind; [typeclasses eauto|apply steady_log|].
    intros _. apply preserves_bind; [typeclasses eauto|apply steady_close|].
    intros _. apply steady_log.
  - eapply consistent_steady; [done|apply steady_remove|done].
  - apply Hret.
    eapply consistent_steady; [done|apply steady_create_did|done].
  - apply Hret. eapply consistent_steady; [done|apply steady_load_did|done].
  - apply Hret.
    eapply consistent_steady; [done|apply steady_stored_dids|done].
Qed.

Lemma reachable_consistent σ : reachable sdk σ → consistent σ.
Proof.
  induction 1 as [b|σ d _ IH|σ l d _ IH Hl|σ p n c _ IH Hc
                 |σ m self _ IH Hself|σ b _ IH].
  - unfold empty_world. split_and!; proj;
      [intros l w Hl; by rewrite lookup_empty in Hl|constructor
      |intros l w Hl; by rewrite lookup_empty in Hl].
  - destruct IH as (Hcfg & Hiss & Hopen). split_and!; [|done|done].
    intros l w Hl. cbn. apply elem_of_dom. rewrite dom_insert.
    apply elem_of_union_r, elem_of_dom. apply (Hcfg l w Hl).
  - destruct IH as (Hcfg & Hiss & Hopen). split_and!; [|done|done].
    intros l' w Hl'. cbn. apply elem_of_dom. rewrite dom_insert.
    apply elem_of_union_r, elem_of_dom. apply (Hcfg l' w Hl').
  - by apply consistent_init.
  - by apply consistent_invoke.
  - done.
Qed.

(** ** The claims that hold for every SDK *)

(** C1.  When [create_wallet] fails with [WalletAlreadyExistsError], [open]
    does not fail for it: its next SDK call opens the session of the
    existing wallet, and when that call returns a handle, [open] stores the
    handle in the wallet object and returns the object itself. *)
Theorem open_existing_wallet self σ w d b1 (r2 : outcome Z) b2 :
  wallets σ !! self = Some w →
  dicts σ !! _cfg w = Some d →
  sdk (create_wallet (_pool_name w) (_name w) None (backend_config d) None)
    (backend σ)
    = (Raised (IndyError ErrorCode.WalletAlreadyExistsError), b1) →
  sdk (open_wallet (_name w) (backend_config d) None) b1 = (r2, b2) →
  calls (world_after (open sdk self) σ) =
    calls σ ++
    [Event self
       (create_wallet (_pool_name w) (_name w) None (backend_config d) None)
       (Some (IndyError ErrorCode.WalletAlreadyExistsError));
     Event self (open_wallet (_name w) (backend_config d) None)
       (failure_of r2)] ∧
  ∀ h, r2 = Returned h →
    result (open sdk self) σ = Returned self ∧
    wallets (world_after (open sdk self) σ) !! self =
      Some (set__handle (Some h) w).
Proof.
  intros Hw Hd H1 H2. unfold world_after, result.
  destruct (open_proceeds self σ w d _ b1 r2 b2 Hw Hd H1) as [logs ->];
    [by right|done|].
  split; [done|]. intros h ->. proj. split; [done|].
  by rewrite lookup_insert_eq.
Qed.

(** C5, as the code has it.  [open] makes one or two SDK calls, first
    [create_wallet] and then, unless that failed for good, [open_wallet];
    both get the same configuration argument: nothing ([None]) when the
    configuration without [auto_remove] is empty, and otherwise the text of
    the configuration without [auto_remove], every other entry as it is. *)
Theorem open_config_sent self σ w d :
  wallets σ !! self = Some w →
  dicts σ !! _cfg w = Some d →
  ∃ config f1,
    let created :=
      Event self
        (create_wallet (_pool_name w) (_name w) None config None) f1 in
    (calls (world_after (open sdk self) σ) = calls σ ++ [created] ∨
     ∃ f2, calls (world_after (open sdk self) σ) =
           calls σ ++
           [created; Event self (open_wallet (_name w) config None) f2]) ∧
    (delete "auto_remove" d = ∅ → config = None) ∧
    (delete "auto_remove" d ≠ ∅ →
     ∃ sent : dict,
       config = Some (json_dumps (VDict sent)) ∧
       sent !! "auto_remove" = None ∧
       ∀ key, key ≠ "auto_remove" → sent !! key = d !! key).
Proof.
  intros Hw Hd. exists (backend_config d). unfold world_after.
  destruct (sdk (create_wallet (_pool_name w) (_name w) None
                   (backend_config d) None) (backend σ))
    as [r1 b1] eqn:H1.
  destruct (sdk (open_wallet (_name w) (backend_config d) None) b1)
    as [r2 b2] eqn:H2.
  exists (failure_of r1). split_and!.
  - destruct r1 as [[]|e]; [|destruct (create_fatal e) as [e'|] eqn:He].
    + destruct (open_proceeds self σ w d _ b1 r2 b2 Hw Hd H1) as [logs ->];
        [by left|done|]. right. by exists (failure_of r2).
    + destruct (open_aborts self σ w d e e' b1 Hw Hd H1 He) as [logs ->].
      by left.
    + destruct e; try discriminate. cbn in He.
      destruct (error_code =? _) eqn:E; [|done].
      apply Z.eqb_eq in E as ->.
      destruct (open_proceeds self σ w d _ b1 r2 b2 Hw Hd H1) as [logs ->];
        [by right|done|]. right. by exists (failure_of r2).
  - intros He. unfold backend_config. cbv zeta.
    by rewrite (proj2 (truthy_dict _) He).
  - intros Hne. exists (delete "auto_remove" d). split_and!.
    + unfold backend_config. cbv zeta.
      destruct (truthy (VDict (delete "auto_remove" d))) eqn:E; [done|].
      by apply truthy_dict in E.
    + apply lookup_delete_eq.
    + intros key Hkey. by apply lookup_delete_ne.
Qed.

(** C7.  When the SDK returns a pair [(did, verkey)] to [create_did], the
    wallet's current DID and verification key become exactly that pair, no
    other wallet object changes, and [create_did] returns the DID. *)
Theorem create_did_sets_current self σ w i s c dd vk b :
  wallets σ !! self = Some w →
  sdk (create_and_store_my_did (_handle w)
         (json_dumps (VDict (identity_config i s c)))) (backend σ)
    = (Returned (dd, vk), b) →
  result (create_did sdk self i s c) σ = Returned (VStr dd) ∧
  current (world_after (create_did sdk self i s c) σ) self =
    Some (VStr dd, VStr vk) ∧
  wallets (world_after (create_did sdk self i s c) σ) =
    <[self := set__verkey (VStr vk) (set__did (VStr dd) w)]> (wallets σ).
Proof.
  intros Hw H. unfold world_after, result, current.
  destruct (create_did_run self σ w i s c _ b Hw H) as [logs ->]. proj.
  by rewrite lookup_insert_eq.
Qed.

(** C8.  After identity A and then identity B were created, the current
    DID and verification key are B's.  When the SDK then answers the
    request for A's DID with A's stored record, [load_did] makes the
    current pair A's again and returns A's DID; its only SDK call is that
    request, so it creates no identity. *)
Theorem current_identity_switching
    self σ w iA sA cA iB sB cB dA vA dB vB b1 b2 t b3 (m : dict) :
  wallets σ !! self = Some w →
  sdk (create_and_store_my_did (_handle w)
         (json_dumps (VDict (identity_config iA sA cA)))) (backend σ)
    = (Returned (dA, vA), b1) →
  sdk (create_and_store_my_did (_handle w)
         (json_dumps (VDict (identity_config iB sB cB)))) b1
    = (Returned (dB, vB), b2) →
  sdk (get_my_did_with_meta (_handle w) dA) b2 = (Returned t, b3) →
  json_loads t = VDict m →
  m !! "did" = Some (VStr dA) →
  m !! "verkey" = Some (VStr vA) →
  let σ2 :=
    world_after
      (create_did sdk self iA sA cA;; create_did sdk self iB sB cB) σ in
  let σ3 := world_after (load_did sdk self dA) σ2 in
  current σ2 self = Some (VStr dB, VStr vB) ∧
  result (load_did sdk self dA) σ2 = Returned (VStr dA) ∧
  current σ3 self = Some (VStr dA, VStr vA) ∧
  calls σ3 =
    calls σ2 ++ [Event self (get_my_did_with_meta (_handle w) dA) None].
Proof.
  intros Hw HA HB Hget Ht Hdid Hvk. cbv zeta.
  unfold world_after, result, current. rewrite run_bind.
  destruct (create_did_run self σ w iA sA cA _ b1 Hw HA) as [logsA ->].
  cbn beta iota.
  edestruct (create_did_run self) as [logsB ->];
    [lookup_tac|proj; exact HB|]. proj.
  edestruct (load_did_run self) as [logs ->];
    [lookup_tac|proj; exact Hget|exact Ht|exact Hdid|exact Hvk|]. proj.
  by rewrite !lookup_insert_eq.
Qed.

(** C9.  Let [created] be the identities the wallet holds, in the order of
    their creation, and let the SDK list their records oldest first.  Then
    [stored_dids] returns exactly the list the SDK lists, so the records of
    [created] oldest first, one per identity, and changes no object: every
    wallet object (handle, configuration, names, current DID and
    verification key) and every dict is as before. *)
Theorem stored_dids_read_only self σ w t b created :
  wallets σ !! self = Some w →
  sdk (list_my_dids_with_meta (_handle w)) (backend σ) = (Returned t, b) →
  oldest_first created (json_loads t) →
  ∃ v, result (stored_dids sdk self) σ = Returned v ∧
       v = json_loads t ∧
       oldest_first created v ∧
       wallets (world_after (stored_dids sdk self) σ) = wallets σ ∧
       dicts (world_after (stored_dids sdk self) σ) = dicts σ.
Proof.
  intros Hw H Horder. unfold world_after, result.
  destruct (stored_dids_run self σ w _ b Hw H) as [logs ->].
  by exists (json_loads t).
Qed.

(** C10.  [open] strips [auto_remove] from a copy: whatever its outcome,
    the wallet object still refers to the same configuration dict, that
    dict has its content of before, and a [close] that follows, once the
    session is closed, asks for the deletion of the wallet data exactly when
    the original [auto_remove] entry is true. *)
Theorem open_keeps_config self σ w d :
  wallets σ !! self = Some w →
  dicts σ !! _cfg w = Some d →
  let σ' := world_after (open sdk self) σ in
  dicts σ' !! _cfg w = Some d ∧
  ∃ w', wallets σ' !! self = Some w' ∧ _cfg w' = _cfg w ∧
    ∀ b, sdk (close_wallet (_handle w')) (backend σ') = (Returned tt, b) →
         ∃ evs, calls (world_after (close sdk self) σ') = calls σ' ++ evs ∧
                existsb (deletes self) evs = truthy (auto_remove d).
Proof.
  intros Hw Hd σ'.
  destruct (open_cases self σ w d Hw Hd) as (Hds & evs & Hc & _ & Hcase).
  fold (world_after (open sdk self) σ) in Hds, Hcase. fold σ' in Hds, Hcase.
  assert (dicts σ' !! _cfg w = Some d) as Hd'.
  { rewrite Hds, lookup_insert_ne; [done|]. intros Heq.
    apply (is_fresh (dom (dicts σ))). rewrite Heq. apply elem_of_dom. eauto. }
  split; [done|].
  assert (∃ w', wallets σ' !! self = Some w' ∧ _cfg w' = _cfg w)
    as (w' & Hw' & Hcfg).
  { destruct Hcase as [[-> _]|[h ->]]; [eauto|].
    eexists. by rewrite lookup_insert_eq. }
  exists w'. split_and!; [done..|]. intros b Hclose.
  rewrite <- Hcfg in Hd'. unfold world_after.
  destruct (truthy (auto_remove d)) eqn:Ht.
  - destruct (sdk (delete_wallet (_name w') None) b) as [r b'] eqn:Hdel.
    destruct (close_removes self σ' w' d b r b' Hw' Hd' Hclose Ht Hdel)
      as [logs ->].
    eexists. split; [done|]. cbn. by rewrite bool_decide_eq_true_2.
  - destruct (close_keeps self σ' w' d b Hw' Hd' Hclose Ht) as [logs ->].
    eexists. split; [done|]. done.
Qed.

(** C4, as the code has it.  In every reachable world a wallet that is
    [Open] has a handle; [close] changes no wallet object, so the handle
    stays as it was; a wallet object just constructed has no handle; and
    [open] stores the handle of the session it opened. *)
Theorem handle_of_lifecycle σ self w :
  reachable sdk σ →
  wallets σ !! self = Some w →
  (lifecycle self (calls σ) = Open → is_Some (_handle w)) ∧
  wallets (world_after (close sdk self) σ) !! self = Some w ∧
  (∀ p n c,
     (∀ l, c = Some l → is_Some (dicts σ !! l)) →
     ∃ w0, wallets (world_after (__init__ p n c) σ)
             !! fresh (dom (wallets σ)) = Some w0 ∧
           result (__init__ p n c) σ = Returned (fresh (dom (wallets σ))) ∧
           _handle w0 = None) ∧
  (∀ d (r1 : outcome unit) b1 h b2,
     dicts σ !! _cfg w = Some d →
     sdk (create_wallet (_pool_name w) (_name w) None (backend_config d) None)
       (backend σ) = (r1, b1) →
     r1 = Returned tt ∨
       r1 = Raised (IndyError ErrorCode.WalletAlreadyExistsError) →
     sdk (open_wallet (_name w) (backend_config d) None) b1
       = (Returned h, b2) →
     wallets (world_after (open sdk self) σ) !! self =
       Some (set__handle (Some h) w)).
Proof.
  intros Hreach Hw. split_and!.
  - destruct (reachable_consistent σ Hreach) as (_ & _ & Hopen). eauto.
  - unfold world_after.
    destruct (same_store_close self σ) as [-> _]. done.
  - intros p n c Hc. unfold world_after, result.
    destruct (init_run p n c σ Hc) as (logs & st & ds & -> & _).
    proj. eexists. by rewrite lookup_insert_eq.
  - intros d r1 b1 h b2 Hd H1 Hr1 H2. unfold world_after.
    destruct (open_proceeds self σ w d r1 b1 _ b2 Hw Hd H1 Hr1 H2)
      as [logs ->].
    proj. by rewrite lookup_insert_eq.
Qed.
(** ** Further properties of the constructor and of open *)

(** X1.  [Wallet(pool, name, cfg)] keeps the caller's dict object itself
    when it is not empty, and its content is untouched; for an empty dict it
    keeps a new empty dict object instead, another one than the caller's. *)
Theorem init_aliases_config p n l d σ :
  dicts σ !! l = Some d →
  ∃ w, wallets (world_after (__init__ p n (Some l)) σ)
         !! fresh (dom (wallets σ)) = Some w ∧
       dicts (world_after (__init__ p n (Some l)) σ) !! l = Some d ∧
       (d ≠ ∅ → _cfg w = l) ∧
       (d = ∅ →
        _cfg w ≠ l ∧
        dicts σ !! _cfg w = None ∧
        dicts (world_after (__init__ p n (Some l)) σ) !! _cfg w = Some ∅).
Proof.
  intros Hd. unfold world_after, __init__, new_wallet. run.
  pose proof (is_fresh (dom (dicts σ))) as Hfresh.
  rewrite not_elem_of_dom in Hfresh.
  assert (fresh (dom (dicts σ)) ≠ l) as Hne by congruence.
  destruct (truthy (VDict d)) eqn:Ht; run; eexists;
    (split; [by rewrite lookup_insert_eq|]).
  - split_and!; [done|done|]. intros ->. by rewrite (proj2 (truthy_dict ∅)) in Ht.
  - apply truthy_dict in Ht as ->. split_and!.
    + by rewrite lookup_insert_ne.
    + done.
    + intros _. cbn. split_and!; [done|done|by rewrite lookup_insert_eq].
Qed.

(** X2.  The constructor does not open anything: it makes no SDK call,
    leaves the SDK's state, every wallet object and every dict object as they
    are, and returns a new wallet object with the names given, no handle and
    no current identity; without [cfg] its configuration is a new empty
    dict. *)
Theorem init_is_offline p n c σ :
  (∀ l, c = Some l → is_Some (dicts σ !! l)) →
  let σ' := world_after (__init__ p n c) σ in
  let self := fresh (dom (wallets σ)) in
  result (__init__ p n c) σ = Returned self ∧
  wallets σ !! self = None ∧
  calls σ' = calls σ ∧ backend σ' = backend σ ∧
  (∀ l w, wallets σ !! l = Some w → wallets σ' !! l = Some w) ∧
  (∀ l d, dicts σ !! l = Some d → dicts σ' !! l = Some d) ∧
  ∃ w, wallets σ' !! self = Some w ∧
       _pool_name w = p ∧ _name w = n ∧ _handle w = None ∧
       _did w = VNone ∧ _verkey w = VNone ∧
       (c = None → dicts σ !! _cfg w = None ∧ dicts σ' !! _cfg w = Some ∅).
Proof.
  intros Hc σ' self. subst σ'. unfold world_after, result.
  pose proof (is_fresh (dom (wallets σ))) as Hfw.
  rewrite not_elem_of_dom in Hfw.
  pose proof (is_fresh (dom (dicts σ))) as Hfd.
  rewrite not_elem_of_dom in Hfd.
  unfold __init__, new_wallet. destruct c as [l|].
  - destruct (Hc l eq_refl) as [d Hd]. run.
    destruct (truthy (VDict d)); run.
    + split_and!; [done..| |done|].
      * intros l' w' Hl'. rewrite lookup_insert_ne; [done|]. congruence.
      * eexists. split; [by rewrite lookup_insert_eq|]. by cbn.
    + split_and!; [done..| | |].
      * intros l' w' Hl'. rewrite lookup_insert_ne; [done|]. congruence.
      * intros l' d' Hl'. rewrite lookup_insert_ne; [done|]. congruence.
      * eexists. split; [by rewrite lookup_insert_eq|]. by cbn.
  - run. split_and!; [done..| | |].
    + intros l' w' Hl'. rewrite lookup_insert_ne; [done|]. congruence.
    + intros l' d' Hl'. rewrite lookup_insert_ne; [done|]. congruence.
    + eexists. split; [by rewrite lookup_insert_eq|]. cbn.
      split_and!; [done..|]. intros _. by rewrite lookup_insert_eq.
Qed.

(** The three ways [create_wallet] can end for [open]. *)
Lemma create_verdict (r1 : outcome unit) :
  r1 = Returned tt ∨
  r1 = Raised (IndyError ErrorCode.WalletAlreadyExistsError) ∨
  ∃ e e', r1 = Raised e ∧ create_fatal e = Some e'.
Proof.
  destruct r1 as [[]|e]; [by left|]. right.
  destruct (create_fatal e) as [e'|] eqn:He; [right; eauto|left].
  destruct e; try discriminate. cbn in He.
  destruct (error_code =? _) eqn:E; [|done].
  by apply Z.eqb_eq in E as ->.
Qed.

(** X3.  When [open] raises, whatever the reason, no wallet object has
    changed: the handle is only assigned once the session is open. *)
Theorem open_failure_changes_no_wallet self σ w d e :
  wallets σ !! self = Some w →
  dicts σ !! _cfg w = Some d →
  result (open sdk self) σ = Raised e →
  wallets (world_after (open sdk self) σ) = wallets σ.
Proof.
  intros Hw Hd. unfold result, world_after.
  destruct (sdk (create_wallet (_pool_name w) (_name w) None
                   (backend_config d) None) (backend σ))
    as [r1 b1] eqn:H1.
  destruct (sdk (open_wallet (_name w) (backend_config d) None) b1)
    as [r2 b2] eqn:H2.
  destruct (create_verdict r1) as [Hr|[Hr|(e1 & e' & -> & He)]].
  1,2: edestruct (open_proceeds self σ) as [logs ->]; eauto; proj;
    by destruct r2.
  by edestruct (open_aborts self σ) as [logs ->]; eauto.
Qed.

(** X4.  An exception of [create_wallet] that is no [IndyError] is not
    handled: [open] raises that very exception, and its only SDK call is the
    failed [create_wallet]. *)
Theorem open_foreign_exception_propagates self σ w d e b1 :
  wallets σ !! self = Some w →
  dicts σ !! _cfg w = Some d →
  sdk (create_wallet (_pool_name w) (_name w) None (backend_config d) None)
    (backend σ) = (Raised e, b1) →
  (∀ code, e ≠ IndyError code) →
  result (open sdk self) σ = Raised e ∧
  calls (world_after (open sdk self) σ) =
    calls σ ++
    [Event self
       (create_wallet (_pool_name w) (_name w) None (backend_config d) None)
       (Some e)].
Proof.
  intros Hw Hd H1 He. unfold result, world_after.
  assert (create_fatal e = Some e) as Hf.
  { destruct e; try done. by destruct (He error_code). }
  by destruct (open_aborts self σ w d e e b1 Hw Hd H1 Hf) as [logs ->].
Qed.

(** X5.  When the wallet could be created, or exists, and [open_wallet]
    raises, [open] raises that very exception and the wallet object stays
    without the handle. *)
Theorem open_session_failure_propagates
    self σ w d (r1 : outcome unit) b1 e b2 :
  wallets σ !! self = Some w →
  dicts σ !! _cfg w = Some d →
  sdk (create_wallet (_pool_name w) (_name w) None (backend_config d) None)
    (backend σ) = (r1, b1) →
  r1 = Returned tt ∨
    r1 = Raised (IndyError ErrorCode.WalletAlreadyExistsError) →
  sdk (open_wallet (_name w) (backend_config d) None) b1 = (Raised e, b2) →
  result (open sdk self) σ = Raised e ∧
  wallets (world_after (open sdk self) σ) !! self = Some w.
Proof.
  intros Hw Hd H1 Hr1 H2. unfold result, world_after.
  by destruct (open_proceeds self σ w d r1 b1 _ b2 Hw Hd H1 Hr1 H2)
    as [logs ->].
Qed.

(** X6.  When [open] returns, it returns the wallet object, the wallet is
    [Open], and its handle is the one the last SDK call, a successful
    [open_wallet], returned. *)
Theorem open_returns_means_Open self σ w d x :
  wallets σ !! self = Some w →
  dicts σ !! _cfg w = Some d →
  result (open sdk self) σ = Returned x →
  let σ' := world_after (open sdk self) σ in
  x = self ∧
  lifecycle self (calls σ') = Open ∧
  ∃ h, wallets σ' !! self = Some (set__handle (Some h) w) ∧
       last (calls σ') =
         Some (Event self (open_wallet (_name w) (backend_config d) None) None).
Proof.
  intros Hw Hd. unfold result, world_after.
  destruct (sdk (create_wallet (_pool_name w) (_name w) None
                   (backend_config d) None) (backend σ))
    as [r1 b1] eqn:H1.
  destruct (sdk (open_wallet (_name w) (backend_config d) None) b1)
    as [r2 b2] eqn:H2.
  destruct (create_verdict r1) as [Hr|[Hr|(e1 & e' & -> & He)]].
  3: by edestruct (open_aborts self σ) as [logs ->]; eauto.
  all: edestruct (open_proceeds self σ) as [logs ->]; eauto; proj;
    destruct r2 as [h|e]; [|done]; intros [= <-]; cbv zeta; proj;
    (split; [done|]); split.
  1,3: rewrite lifecycle_app; cbn; unfold lifecycle_step; cbn;
    by rewrite !bool_decide_eq_true_2.
  all: exists h; split; [by rewrite lookup_insert_eq|];
    by rewrite last_app.
Qed.

(** ** Further properties of remove and close *)

(** X7.  [remove] needs no session: its one SDK call is
    [delete_wallet(name, None)], whatever the handle, and no object changes.
    It returns when the deletion succeeded, and an exception that is no
    [Exception] ([KeyboardInterrupt] and the like) passes through it. *)
Theorem remove_single_call self σ w (r : outcome unit) b :
  wallets σ !! self = Some w →
  sdk (delete_wallet (_name w) None) (backend σ) = (r, b) →
  let σ' := world_after (remove sdk self) σ in
  calls σ' =
    calls σ ++ [Event self (delete_wallet (_name w) None) (failure_of r)] ∧
  wallets σ' = wallets σ ∧ dicts σ' = dicts σ ∧ backend σ' = b ∧
  (r = Returned tt → result (remove sdk self) σ = Returned tt) ∧
  (∀ e, r = Raised e → is_Exception e = false →
        result (remove sdk self) σ = Raised e).
Proof.
  intros Hw H. cbv zeta. unfold world_after, result.
  destruct (remove_run self σ w r b Hw H) as [logs ->]. proj.
  split_and!; [done..| |].
  - by intros ->.
  - intros e -> He. cbn. by rewrite He.
Qed.

(** X8.  When [close_wallet] raises, [close] raises that very exception and
    stops there: the wallet data is not deleted, whatever [auto_remove]
    says, and no object changes. *)
Theorem close_session_failure self σ w e b :
  wallets σ !! self = Some w →
  sdk (close_wallet (_handle w)) (backend σ) = (Raised e, b) →
  let σ' := world_after (close sdk self) σ in
  result (close sdk self) σ = Raised e ∧
  calls σ' = calls σ ++ [Event self (close_wallet (_handle w)) (Some e)] ∧
  wallets σ' = wallets σ ∧ dicts σ' = dicts σ.
Proof.
  intros Hw H. cbv zeta. unfold world_after, result.
  by destruct (close_session_fails self σ w e b Hw H) as [logs ->].
Qed.

(** X9.  Without an [auto_remove] entry, or with one that is false in
    Python's sense ([False], [None], [0], an empty string, list or dict),
    [close] only closes the session: one SDK call, and it returns. *)
Theorem close_without_auto_remove self σ w d b :
  wallets σ !! self = Some w →
  dicts σ !! _cfg w = Some d →
  sdk (close_wallet (_handle w)) (backend σ) = (Returned tt, b) →
  d !! "auto_remove" = None ∨
    (∃ v, d !! "auto_remove" = Some v ∧ truthy v = false) →
  let σ' := world_after (close sdk self) σ in
  result (close sdk self) σ = Returned tt ∧
  calls σ' = calls σ ++ [Event self (close_wallet (_handle w)) None] ∧
  wallets σ' = wallets σ ∧ dicts σ' = dicts σ.
Proof.
  intros Hw Hd H Hv. cbv zeta. unfold world_after, result.
  assert (truthy (auto_remove d) = false) as Ht.
  { unfold auto_remove. by destruct Hv as [->|(v & -> & ?)]. }
  by destruct (close_keeps self σ w d b Hw Hd H Ht) as [logs ->].
Qed.

(** X10.  With an [auto_remove] entry that is true in Python's sense, [close]
    closes the session and then deletes the wallet data by name; when the
    deletion succeeds it returns, and no object has changed. *)
Theorem close_with_auto_remove self σ w d v b b' :
  wallets σ !! self = Some w →
  dicts σ !! _cfg w = Some d →
  d !! "auto_remove" = Some v →
  truthy v = true →
  sdk (close_wallet (_handle w)) (backend σ) = (Returned tt, b) →
  sdk (delete_wallet (_name w) None) b = (Returned tt, b') →
  let σ' := world_after (close sdk self) σ in
  result (close sdk self) σ = Returned tt ∧
  calls σ' =
    calls σ ++
    [Event self (close_wallet (_handle w)) None;
     Event self (delete_wallet (_name w) None) None] ∧
  wallets σ' = wallets σ ∧ dicts σ' = dicts σ ∧ backend σ' = b'.
Proof.
  intros Hw Hd Hk Hv H H'. cbv zeta. unfold world_after, result.
  assert (truthy (auto_remove d) = true) as Ht.
  { unfold auto_remove. by rewrite Hk. }
  by destruct (close_removes self σ w d b _ b' Hw Hd H Ht H') as [logs ->].
Qed.

(** X11.  The configuration is read when [close] runs, not when the wallet
    was constructed or opened: after the dict the wallet refers to was
    rewritten, [close] asks for the deletion exactly when the new content
    has a true [auto_remove] entry. *)
Theorem close_reads_live_config self σ w d' b :
  wallets σ !! self = Some w →
  sdk (close_wallet (_handle w)) (backend σ) = (Returned tt, b) →
  let σ1 := world_after (write_dict (_cfg w) d') σ in
  ∃ evs, calls (world_after (close sdk self) σ1) = calls σ1 ++ evs ∧
         existsb (deletes self) evs = truthy (auto_remove d').
Proof.
  intros Hw H σ1. unfold world_after in *.
  assert (wallets σ1 !! self = Some w) as Hw1 by done.
  assert (dicts σ1 !! _cfg w = Some d') as Hd1.
  { subst σ1. rewrite run_write_dict. proj. by rewrite lookup_insert_eq. }
  assert (sdk (close_wallet (_handle w)) (backend σ1) = (Returned tt, b))
    as H1 by done.
  destruct (truthy (auto_remove d')) eqn:Ht.
  - destruct (sdk (delete_wallet (_name w) None) b) as [r b'] eqn:Hdel.
    destruct (close_removes self σ1 w d' b r b' Hw1 Hd1 H1 Ht Hdel)
      as [logs ->].
    eexists. split; [done|]. cbn. by rewrite bool_decide_eq_true_2.
  - destruct (close_keeps self σ1 w d' b Hw1 Hd1 H1 Ht) as [logs ->].
    eexists. split; [done|]. done.
Qed.

(** X12.  When [close] returns, the wallet is [Closed], and every wallet
    object, the handle included, is as it was. *)
Theorem close_returns_means_Closed self σ w d :
  wallets σ !! self = Some w →
  dicts σ !! _cfg w = Some d →
  result (close sdk self) σ = Returned tt →
  lifecycle self (calls (world_after (close sdk self) σ)) = Closed ∧
  wallets (world_after (close sdk self) σ) = wallets σ.
Proof.
  intros Hw Hd. unfold result, world_after.
  destruct (sdk (close_wallet (_handle w)) (backend σ)) as [[[]|e] b] eqn:H.
  2: by destruct (close_session_fails self σ w e b Hw H) as [logs ->].
  destruct (truthy (auto_remove d)) eqn:Ht.
  - destruct (sdk (delete_wallet (_name w) None) b) as [r b'] eqn:Hdel.
    destruct (close_removes self σ w d b r b' Hw Hd H Ht Hdel) as [logs ->].
    proj. intros _. split; [|done].
    rewrite lifecycle_app. cbn. unfold lifecycle_step. cbn.
    by rewrite !bool_decide_eq_true_2.
  - destruct (close_keeps self σ w d b Hw Hd H Ht) as [logs ->].
    proj. intros _. split; [|done].
    rewrite lifecycle_app. cbn. unfold lifecycle_step. cbn.
    by rewrite !bool_decide_eq_true_2.
Qed.

(** ** Further properties of the identity methods *)

(** X13.  When the SDK raises in [create_did], the exception passes through
    and no wallet object changes: the current DID and verification key are
    those of before. *)
Theorem create_did_failure self σ w i s c e b :
  wallets σ !! self = Some w →
  sdk (create_and_store_my_did (_handle w)
         (json_dumps (VDict (identity_config i s c)))) (backend σ)
    = (Raised e, b) →
  result (create_did sdk self i s c) σ = Raised e ∧
  wallets (world_after (create_did sdk self i s c) σ) = wallets σ.
Proof.
  intros Hw H. unfold world_after, result.
  by destruct (create_did_run self σ w i s c _ b Hw H) as [logs ->].
Qed.

(** X14.  When the SDK raises in [load_did], as for a DID the wallet does not
    hold, the exception passes through and no wallet object changes. *)
Theorem load_did_failure self σ w i e b :
  wallets σ !! self = Some w →
  sdk (get_my_did_with_meta (_handle w) i) (backend σ) = (Raised e, b) →
  result (load_did sdk self i) σ = Raised e ∧
  wallets (world_after (load_did sdk self i) σ) = wallets σ ∧
  calls (world_after (load_did sdk self i) σ) =
    calls σ ++ [Event self (get_my_did_with_meta (_handle w) i) (Some e)].
Proof.
  intros Hw H. unfold world_after, result, load_did. by run.
Qed.

(** X15.  [load_did] assigns the DID before it reads the verification key:
    when the SDK's record has a [did] entry and no [verkey] entry, it raises
    [KeyError] for [verkey], and the wallet is left with the record's DID
    beside the verification key of before. *)
Theorem load_did_missing_verkey self σ w i t b (m : dict) v :
  wallets σ !! self = Some w →
  sdk (get_my_did_with_meta (_handle w) i) (backend σ) = (Returned t, b) →
  json_loads t = VDict m →
  m !! "did" = Some v →
  m !! "verkey" = None →
  result (load_did sdk self i) σ = Raised (KeyError "verkey") ∧
  wallets (world_after (load_did sdk self i) σ) =
    <[self := set__did v w]> (wallets σ).
Proof.
  intros Hw H Ht Hdid Hvk. unfold world_after, result, load_did, subscript.
  run. rewrite Ht, Hdid. run. rewrite Hvk. by run.
Qed.

(** X16.  When what the SDK returns to [load_did] is no JSON object, or an
    object without a [did] entry, [load_did] raises [TypeError] or
    [KeyError] for [did], and no wallet object changes. *)
Theorem load_did_without_did self σ w i t b :
  wallets σ !! self = Some w →
  sdk (get_my_did_with_meta (_handle w) i) (backend σ) = (Returned t, b) →
  match json_loads t with VDict m => m !! "did" = None | _ => True end →
  result (load_did sdk self i) σ =
    Raised match json_loads t with
           | VDict _ => KeyError "did"
           | v => TypeError (type_name v)
           end ∧
  wallets (world_after (load_did sdk self i) σ) = wallets σ.
Proof.
  intros Hw H Ht. unfold world_after, result, load_did, subscript. run.
  destruct (json_loads t) as [| | | | |m]; run; try done.
  rewrite Ht. by run.
Qed.

(** ** What the methods never touch *)

#[local] Instance own_preorder self : PreOrder (@own B self).
Proof.
  split; [by split|].
  intros σ1 σ2 σ3 [H1 N1] [H2 N2]. split.
  - intros l Hl. by rewrite H2, H1.
  - intros l. by rewrite N2.
Qed.

#[local] Instance same_dicts_preorder : PreOrder (@same_dicts B).
Proof.
  split; [done|]. unfold same_dicts. intros σ1 σ2 σ3 H1 H2. congruence.
Qed.

Lemma own_log self lv tpl vs : preserves (own self) (log lv tpl vs : M B unit).
Proof. by intros σ. Qed.

Lemma own_sdk_call self l c : preserves (own self) (sdk_call sdk l c).
Proof. intros σ. unfold sdk_call. by destruct (sdk c (backend σ)). Qed.

Lemma own_write_dict self l d :
  preserves (own self) (write_dict l d : M B unit).
Proof. by intros σ. Qed.

Lemma own_new_dict self d : preserves (own self) (new_dict d : M B loc).
Proof. by intros σ. Qed.

Lemma own_update_wallet self f :
  (∀ w, names (f w) = names w) →
  preserves (own self) (update_wallet self f : M B unit).
Proof.
  intros Hf σ. unfold update_wallet.
  destruct (wallets σ !! self) as [w|] eqn:Hw; [|reflexivity]. split; cbn.
  - intros l Hl. by rewrite lookup_insert_ne.
  - intros l. destruct (decide (self = l)) as [<-|].
    + by rewrite lookup_insert_eq, Hw; cbn; rewrite Hf.
    + by rewrite lookup_insert_ne.
Qed.

Lemma same_dicts_log lv tpl vs :
  preserves same_dicts (log lv tpl vs : M B unit).
Proof. by intros σ. Qed.

Lemma same_dicts_sdk_call l c : preserves same_dicts (sdk_call sdk l c).
Proof. intros σ. unfold sdk_call. by destruct (sdk c (backend σ)). Qed.

Lemma same_dicts_update_wallet l f :
  preserves same_dicts (update_wallet l f : M B unit).
Proof. intros σ. unfold update_wallet. by destruct (wallets σ !! l). Qed.

Ltac frame' :=
  repeat first
    [ apply preserves_ret; typeclasses eauto
    | apply preserves_raise; typeclasses eauto
    | apply preserves_get_wallet; typeclasses eauto
    | apply preserves_read_dict; typeclasses eauto
    | apply preserves_lookup_global; typeclasses eauto
    | apply own_log | exact (own_sdk_call _ _ _)
    | apply own_write_dict | apply own_new_dict
    | apply own_update_wallet; reflexivity
    | apply same_dicts_log | exact (same_dicts_sdk_call _ _)
    | apply same_dicts_update_wallet
    | apply preserves_bind; [typeclasses eauto| |intros ?]
    | apply preserves_try; [typeclasses eauto| |intros ?]
    | progress (cbv beta)
    | case_match ].

Lemma own_open self : preserves (own self) (open sdk self).
Proof.
  unfold open, cfg, json_roundtrip, dict_contains, dict_pop, pool_name, name,
    handle, dumps_or_None, getattr, getattr_value.
  frame'.
Qed.

Lemma own_close self : preserves (own self) (close sdk self).
Proof. unfold close, handle, cfg, dict_get, remove, name. frame'. Qed.

(** X17.  [close], [__aexit__], [remove] and [stored_dids] change no object,
    whatever the SDK does and whatever their outcome: every wallet object
    and every dict is as before. *)
Theorem observers_change_no_object self σ :
  same_store σ (world_after (close sdk self) σ) ∧
  same_store σ (world_after (__aexit__ sdk self) σ) ∧
  same_store σ (world_after (remove sdk self) σ) ∧
  same_store σ (world_after (stored_dids sdk self) σ).
Proof.
  split_and!.
  - apply same_store_close.
  - apply (preserves_bind same_store); [apply same_store_log|]. intros _.
    apply (preserves_bind same_store); [apply same_store_close|]. intros _.
    apply same_store_log.
  - apply same_store_remove.
  - apply same_store_stored_dids.
Qed.

(** X18.  A method invoked on a wallet object changes no other wallet
    object, and changes the pool name, the name and the configuration
    reference of none: they are as [__init__] set them, whatever the SDK does
    and whatever the outcome. *)
Theorem methods_touch_only_self m self σ :
  let σ' := world_after (invoke sdk m self) σ in
  (∀ l, l ≠ self → wallets σ' !! l = wallets σ !! l) ∧
  (∀ l w, wallets σ !! l = Some w →
          ∃ w', wallets σ' !! l = Some w' ∧
                _pool_name w' = _pool_name w ∧ _name w' = _name w ∧
                _cfg w' = _cfg w).
Proof.
  cbv zeta.
  assert (own self σ (world_after (invoke sdk m self) σ)) as [Hother Hnames].
  { revert σ. change (preserves (own self) (invoke sdk m self)).
    destruct m; cbn [invoke].
    - apply preserves_bind; [typeclasses eauto|apply own_open|]. intros ?.
      apply preserves_ret; typeclasses eauto.
    - apply preserves_bind; [typeclasses eauto| |intros ?;
        apply preserves_ret; typeclasses eauto].
      apply preserves_bind; [typeclasses eauto|apply own_log|]. intros _.
      apply preserves_bind; [typeclasses eauto|apply own_open|]. intros ?.
      apply preserves_bind; [typeclasses eauto|apply own_log|]. intros _.
      apply preserves_ret; typeclasses eauto.
    - apply own_close.
    - apply preserves_bind; [typeclasses eauto|apply own_log|]. intros _.
      apply preserves_bind; [typeclasses eauto|apply own_close|]. intros _.
      apply own_log.
    - unfold remove, name. frame'.
    - unfold create_did. frame'.
    - unfold load_did, subscript. frame'.
    - unfold stored_dids. frame'. }
  split; [done|]. intros l w Hl. specialize (Hnames l). rewrite Hl in Hnames.
  destruct (wallets _ !! l) as [w'|]; [|done]. exists w'.
  cbn in Hnames. injection Hnames as -> -> ->. done.
Qed.

(** ** The log does not matter, and the context manager *)

Lemma world_after_discard {A} (m : M B A) σ :
  world_after (m ≫= λ _, mret tt) σ = world_after m σ.
Proof. unfold world_after. rewrite run_bind. by destruct (m σ) as [[]]. Qed.

Lemma open_log_irrelevant self σ w d logs0 :
  wallets σ !! self = Some w →
  dicts σ !! _cfg w = Some d →
  (open sdk self (with_records logs0 σ)).1 = (open sdk self σ).1 ∧
  log_free (open sdk self (with_records logs0 σ)).2 =
    log_free (open sdk self σ).2.
Proof.
  intros Hw Hd.
  destruct (sdk (create_wallet (_pool_name w) (_name w) None
                   (backend_config d) None) (backend σ))
    as [r1 b1] eqn:H1.
  destruct (sdk (open_wallet (_name w) (backend_config d) None) b1)
    as [r2 b2] eqn:H2.
  destruct (create_verdict r1) as [Hr|[Hr|(e1 & e' & -> & He)]].
  1,2: edestruct (open_proceeds self σ) as [logs ->]; eauto;
    edestruct (open_proceeds self (with_records logs0 σ)) as [logs' ->];
    eauto.
  edestruct (open_aborts self σ) as [logs ->]; eauto.
  edestruct (open_aborts self (with_records logs0 σ)) as [logs' ->]; eauto.
Qed.

Lemma close_log_irrelevant self σ w d logs0 :
  wallets σ !! self = Some w →
  dicts σ !! _cfg w = Some d →
  (close sdk self (with_records logs0 σ)).1 = (close sdk self σ).1 ∧
  log_free (close sdk self (with_records logs0 σ)).2 =
    log_free (close sdk self σ).2.
Proof.
  intros Hw Hd.
  destruct (sdk (close_wallet (_handle w)) (backend σ)) as [[[]|e] b] eqn:H.
  - destruct (truthy (auto_remove d)) eqn:Ht.
    + destruct (sdk (delete_wallet (_name w) None) b) as [r b'] eqn:Hdel.
      edestruct (close_removes self σ) as [logs ->]; eauto.
      edestruct (close_removes self (with_records logs0 σ)) as [logs' ->];
        eauto.
    + edestruct (close_keeps self σ) as [logs ->]; eauto.
      edestruct (close_keeps self (with_records logs0 σ)) as [logs' ->];
        eauto.
  - edestruct (close_session_fails self σ) as [logs ->]; eauto.
    edestruct (close_session_fails self (with_records logs0 σ))
      as [logs' ->]; eauto.
Qed.

Lemma aenter_effect self σ w d :
  wallets σ !! self = Some w →
  dicts σ !! _cfg w = Some d →
  result (__aenter__ sdk self) σ = result (open sdk self) σ ∧
  log_free (world_after (__aenter__ sdk self) σ) =
    log_free (world_after (open sdk self) σ).
Proof.
  intros Hw Hd. unfold result, world_after, __aenter__.
  rewrite run_bind, run_log. cbn beta iota. rewrite run_bind.
  fold (with_records (records σ ++ [Log DEBUG "Wallet.__aenter__: >>>" []]) σ).
  destruct (open_log_irrelevant self σ w d
              (records σ ++ [Log DEBUG "Wallet.__aenter__: >>>" []]) Hw Hd)
    as [H1 H2].
  destruct (open sdk self (with_records _ σ)) as [[x|e] σ']; run;
    cbn in H1, H2; by rewrite <- H1, <- H2.
Qed.

Lemma aexit_effect self σ w d :
  wallets σ !! self = Some w →
  dicts σ !! _cfg w = Some d →
  result (__aexit__ sdk self) σ = result (close sdk self) σ ∧
  log_free (world_after (__aexit__ sdk self) σ) =
    log_free (world_after (close sdk self) σ).
Proof.
  intros Hw Hd. unfold result, world_after, __aexit__.
  rewrite run_bind, run_log. cbn beta iota. rewrite run_bind.
  fold (with_records (records σ ++ [Log DEBUG "Wallet.__aexit__: >>>" []]) σ).
  destruct (close_log_irrelevant self σ w d
              (records σ ++ [Log DEBUG "Wallet.__aexit__: >>>" []]) Hw Hd)
    as [H1 H2].
  destruct (close sdk self (with_records _ σ)) as [[[]|e] σ']; run;
    cbn in H1, H2; by rewrite <- H1, <- H2.
Qed.

(** X19.  No method ever changes a dict object that exists: whichever method
    is invoked on a wallet, whatever the SDK does and whatever the outcome,
    every dict, the wallet's configuration and the caller's dicts alike, has
    its content of before. *)
Theorem no_method_mutates_a_dict m self σ w d0 :
  wallets σ !! self = Some w →
  dicts σ !! _cfg w = Some d0 →
  ∀ l d, dicts σ !! l = Some d →
         dicts (world_after (invoke sdk m self) σ) !! l = Some d.
Proof.
  intros Hw Hd0 l d Hl.
  assert (dicts (world_after (open sdk self) σ) !! l = Some d) as Hopen.
  { destruct (open_cases self σ w d0 Hw Hd0) as (Hds & _).
    unfold world_after. rewrite Hds, lookup_insert_ne; [done|]. intros Heq.
    apply (is_fresh (dom (dicts σ))). rewrite Heq. apply elem_of_dom. eauto. }
  assert (∀ {A} (f : M B A), preserves same_dicts f →
            dicts (world_after f σ) !! l = Some d) as Hsame.
  { intros A f Hf. unfold world_after. by rewrite (Hf σ). }
  destruct m; cbn [invoke]; rewrite ?world_after_discard.
  - done.
  - destruct (aenter_effect self σ w d0 Hw Hd0) as [_ Heq].
    injection Heq as _ -> _ _. done.
  - apply Hsame. unfold close, handle, cfg, dict_get, remove, name. frame'.
  - apply Hsame.
    unfold __aexit__, close, handle, cfg, dict_get, remove, name. frame'.
  - apply Hsame. unfold remove, name. frame'.
  - apply Hsame. unfold create_did. frame'.
  - apply Hsame. unfold load_did, subscript. frame'.
  - apply Hsame. unfold stored_dids. frame'.
Qed.

(** X20.  The context manager is [open] and [close]: [__aenter__] has the
    outcome of [open], so it returns the wallet object when it returns, and
    [__aexit__] has the outcome of [close], so a failure of [close] is raised
    from the [async with] statement; each leaves the world of its method
    behind, the log apart. *)
Theorem context_manager_is_open_close self σ w d :
  wallets σ !! self = Some w →
  dicts σ !! _cfg w = Some d →
  result (__aenter__ sdk self) σ = result (open sdk self) σ ∧
  log_free (world_after (__aenter__ sdk self) σ) =
    log_free (world_after (open sdk self) σ) ∧
  result (__aexit__ sdk self) σ = result (close sdk self) σ ∧
  log_free (world_after (__aexit__ sdk self) σ) =
    log_free (world_after (close sdk self) σ).
Proof.
  intros Hw Hd.
  destruct (aenter_effect self σ w d Hw Hd) as [? ?].
  destruct (aexit_effect self σ w d Hw Hd) as [? ?]. done.
Qed.

(** ** What the handle tells *)

Lemma ever_opened_app self tr evs :
  Forall (λ ev, issuer ev = self → opens ev = false) evs →
  ever_opened self (tr ++ evs) ↔ ever_opened self tr.
Proof.
  intros Hevs. unfold ever_opened. rewrite Exists_app. split; [|by left].
  intros [H|H]; [done|]. exfalso.
  apply Exists_exists in H as (ev & Hin & Hiss & Hop).
  rewrite Forall_forall in Hevs. by rewrite (Hevs ev Hin Hiss) in Hop.
Qed.

Lemma handle_tracked_steady self σ σ' :
  (∀ l w, wallets σ !! l = Some w →
          is_Some (_handle w) ↔ ever_opened l (calls σ)) →
  steady self σ σ' →
  ∀ l w, wallets σ' !! l = Some w →
         is_Some (_handle w) ↔ ever_opened l (calls σ').
Proof.
  intros IH (Hw & _ & evs & Hc & Hevs) l w' Hl.
  specialize (Hw l). rewrite Hl in Hw.
  destruct (wallets σ !! l) as [w|] eqn:Hl0; [|done].
  cbn in Hw. injection Hw as _ _ Hh _. rewrite Hh, Hc.
  rewrite ever_opened_app; [by apply IH|].
  eapply Forall_impl; [exact Hevs|]. by intros ev [_ ?] _.
Qed.

Lemma handle_tracked_open self σ w d :
  wallets σ !! self = Some w →
  dicts σ !! _cfg w = Some d →
  (∀ l w, wallets σ !! l = Some w →
          is_Some (_handle w) ↔ ever_opened l (calls σ)) →
  ∀ l w', wallets (open sdk self σ).2 !! l = Some w' →
          is_Some (_handle w') ↔ ever_opened l (calls (open sdk self σ).2).
Proof.
  intros Hw Hd IH l w'.
  destruct (sdk (create_wallet (_pool_name w) (_name w) None
                   (backend_config d) None) (backend σ))
    as [r1 b1] eqn:H1.
  destruct (sdk (open_wallet (_name w) (backend_config d) None) b1)
    as [r2 b2] eqn:H2.
  assert (∀ evs, Forall (λ ev, opens ev = false) evs →
            wallets σ !! l = Some w' →
            is_Some (_handle w') ↔ ever_opened l (calls σ ++ evs)) as Hquiet.
  { intros evs Hevs Hl. rewrite ever_opened_app; [by apply IH|].
    eapply Forall_impl; [exact Hevs|]. by intros ev ? _. }
  destruct (create_verdict r1) as [Hr|[Hr|(e1 & e' & -> & He)]].
  3: { edestruct (open_aborts self σ) as [logs ->]; eauto. proj.
       apply Hquiet. by repeat constructor. }
  all: edestruct (open_proceeds self σ) as [logs ->]; eauto; proj;
    destruct r2 as [h|e]; subst r1.
  2,4: apply Hquiet; by repeat constructor.
  all: destruct (decide (self = l)) as [<-|Hne];
    [rewrite lookup_insert_eq; intros [= <-]; cbn; split; [intros _|eauto];
     apply Exists_app; right; apply Exists_cons_tl, Exists_cons_hd; by cbn
    |rewrite lookup_insert_ne by done; intros Hl;
     rewrite ever_opened_app; [by apply IH|];
     repeat constructor; cbn; congruence].
Qed.

(** X21.  In every reachable world the handle of a wallet object tells
    whether the object ever opened a session: it is set exactly when some
    [open_wallet] issued by the object succeeded, be the session still open
    or closed since. *)
Theorem handle_iff_ever_opened σ self w :
  reachable sdk σ →
  wallets σ !! self = Some w →
  is_Some (_handle w) ↔ ever_opened self (calls σ).
Proof.
  intros Hreach. revert self w.
  induction Hreach as [b|σ d _ IH|σ l d _ IH Hl|σ p n c Hreach IH Hc
                      |σ m self Hreach IH Hself|σ b _ IH].
  - intros self w Hw. cbn in Hw. by rewrite lookup_empty in Hw.
  - done.
  - done.
  - intros l w. unfold world_after.
    destruct (init_run p n c σ Hc) as (logs & st & ds & -> & _). proj.
    destruct (reachable_consistent σ Hreach) as (_ & Hiss & _).
    destruct (decide (fresh (dom (wallets σ)) = l)) as [<-|Hne].
    + rewrite lookup_insert_eq. intros [= <-]. cbn. split; [by intros []|].
      intros H. apply Exists_exists in H as (ev & Hin & Hev & _).
      rewrite Forall_forall in Hiss. destruct (Hiss ev Hin) as [x Hx].
      rewrite Hev in Hx.
      pose proof (is_fresh (dom (wallets σ))) as Hfresh.
      rewrite not_elem_of_dom in Hfresh. congruence.
    + rewrite lookup_insert_ne by done. apply IH.
  - destruct Hself as [w0 Hw0].
    destruct (reachable_consistent σ Hreach) as (Hcfg & _ & _).
    destruct (Hcfg self w0 Hw0) as [d0 Hd0].
    assert (∀ f : M B unit, preserves (steady self) f →
              ∀ l w, wallets (world_after f σ) !! l = Some w →
                     is_Some (_handle w) ↔
                     ever_opened l (calls (world_after f σ))) as Hsteady.
    { intros f Hf. eapply handle_tracked_steady; [exact IH|apply Hf]. }
    destruct m; cbn [invoke]; rewrite ?world_after_discard.
    + apply (handle_tracked_open self σ w0 d0 Hw0 Hd0 IH).
    + destruct (aenter_effect self σ w0 d0 Hw0 Hd0) as [_ Heq].
      injection Heq as -> _ _ ->.
      apply (handle_tracked_open self σ w0 d0 Hw0 Hd0 IH).
    + apply Hsteady, steady_close.
    + apply Hsteady. unfold __aexit__.
      apply preserves_bind; [typeclasses eauto|apply steady_log|]. intros _.
      apply preserves_bind; [typeclasses eauto|apply steady_close|].
      intros _. apply steady_log.
    + apply Hsteady, steady_remove.
    + intros l w. unfold world_after.
      eapply handle_tracked_steady; [exact IH|apply steady_create_did].
    + intros l w. unfold world_after.
      eapply handle_tracked_steady; [exact IH|apply steady_load_did].
    + intros l w. unfold world_after.
      eapply handle_tracked_steady; [exact IH|apply steady_stored_dids].
  - done.
Qed.

End Theory.

(** * Concrete runs *)

(** C1 on the in-memory SDK: the wallet exists already, [open] succeeds and
    keeps the handle 1 of the session. *)
Lemma open_existing_wallet_witness :
  let σ := constructed mem_existing None in
  result (open mem_sdk 1%positive) σ = Returned 1%positive ∧
  ∃ w', wallets (world_after (open mem_sdk 1%positive) σ) !! 1%positive
          = Some w' ∧ _handle w' = Some 1.
Proof.
  intros σ.
  edestruct (open_existing_wallet mem_sdk 1%positive σ) as [_ H];
    [vm_compute; reflexivity..|].
  destruct (H 1 eq_refl) as [H1 H2]. split; [exact H1|].
  eexists. split; [exact H2|reflexivity].
Defined.

(** C2.  The wallet data to remove is not there: [delete_wallet] raises, and
    [remove] does not return but raises [NameError], from the handler that
    was to log the failure. *)
Lemma remove_failure_escapes :
  let σ := constructed mem_empty None in
  result (remove mem_sdk 1%positive) σ = Raised (NameError "sys") ∧
  calls (world_after (remove mem_sdk 1%positive) σ) =
    [Event 1%positive (delete_wallet "my-wallet" None)
       (Some (IndyError ErrorCode.WalletNotFoundError))].
Proof. split; vm_compute; reflexivity. Qed.

(** C3.  The wallet storage is unavailable: [create_wallet] raises
    [IndyError] with [CommonIOError], and what [open] raises is not that
    error but [AttributeError], from the handler that was to log it. *)
Lemma open_error_is_replaced :
  let sdk := failing_sdk (IndyError ErrorCode.CommonIOError) in
  let σ := constructed tt None in
  result (open sdk 1%positive) σ = Raised (AttributeError "Wallet" "e") ∧
  calls (world_after (open sdk 1%positive) σ) =
    [Event 1%positive (create_wallet "pool" "my-wallet" None None None)
       (Some (IndyError ErrorCode.CommonIOError))].
Proof. split; vm_compute; reflexivity. Qed.

(** C6.  A wallet configured with [auto_remove] on a storage that refuses
    deletions: [close] closes the session, asks for the deletion, and fails
    with the [NameError] of [remove]. *)
Lemma close_fails_with_removal :
  let d : dict := {["auto_remove" := VBool true]} in
  let σ := world_after (open mem_sdk 1%positive)
             (constructed mem_read_only (Some d)) in
  result (open mem_sdk 1%positive) (constructed mem_read_only (Some d))
    = Returned 1%positive ∧
  result (close mem_sdk 1%positive) σ = Raised (NameError "sys") ∧
  drop 2 (calls (world_after (close mem_sdk 1%positive) σ)) =
    [Event 1%positive (close_wallet (Some 1)) None;
     Event 1%positive (delete_wallet "my-wallet" None)
       (Some (IndyError ErrorCode.CommonIOError))].
Proof. split_and!; vm_compute; reflexivity. Qed.

(** C4, the counterexample.  A wallet is constructed, opened and closed on
    the in-memory SDK; all three succeed.  The wallet is [Closed] and its
    handle is still the handle of the closed session. *)
Lemma handle_stays_after_close :
  let run :=
    w ← __init__ "pool" "my-wallet" None;
    open mem_sdk w;;
    close mem_sdk w in
  let σ := world_after run (empty_world mem_empty) in
  result run (empty_world mem_empty) = Returned tt ∧
  lifecycle 1%positive (calls σ) = Closed ∧
  (_handle <$> wallets σ !! 1%positive) = Some (Some 1) ∧
  ¬ handle_iff_open σ 1%positive.
Proof.
  intros run σ. split_and!; [vm_compute; reflexivity..|].
  intros H.
  destruct (wallets σ !! 1%positive) as [w|] eqn:Hw; [|by vm_compute in Hw].
  destruct (H w Hw) as [Hopen _].
  assert (_handle w = Some 1) as Hh.
  { vm_compute in Hw. by injection Hw as <-. }
  rewrite Hh in Hopen. specialize (Hopen ltac:(discriminate)).
  vm_compute in Hopen. discriminate.
Qed.

(** C4 on the in-memory SDK: the wallet of the tests, constructed and
    opened, is reachable and [Open], and it has a handle. *)
Lemma handle_of_lifecycle_witness :
  let σ := world_after (invoke mem_sdk m_open 1%positive)
             (world_after (__init__ "pool" "my-wallet" None)
                (empty_world mem_empty)) in
  lifecycle 1%positive (calls σ) = Open ∧
  (_handle <$> wallets σ !! 1%positive) = Some (Some 1).
Proof.
  intros σ.
  destruct (wallets σ !! 1%positive) as [w|] eqn:Hw; [|by vm_compute in Hw].
  assert (reachable mem_sdk σ) as Hreach.
  { apply reach_invoke; [apply reach_init; [apply reach_start|done]|].
    vm_compute. eauto. }
  destruct (handle_of_lifecycle mem_sdk σ 1%positive w Hreach Hw)
    as ([h Hh] & _).
  { vm_compute. reflexivity. }
  split; [vm_compute; reflexivity|].
  vm_compute in Hw. by injection Hw as <-.
Defined.

(** C5, the counterexample.  The configuration is [{'auto_remove': True}]:
    both calls of [open] get no configuration at all, not the text of the
    empty configuration. *)
Lemma empty_config_sent_as_None :
  let d : dict := {["auto_remove" := VBool true]} in
  let σ := constructed mem_empty (Some d) in
  configs_sent (calls (world_after (open mem_sdk 1%positive) σ))
    = [None; None] ∧
  ¬ sends_stripped_config mem_sdk σ 1%positive.
Proof.
  intros d σ. split; [vm_compute; reflexivity|]. intros H.
  specialize
    (H {| _pool_name := "pool"; _name := "my-wallet"; _handle := None;
          _cfg := 1%positive; _did := VNone; _verkey := VNone |} d None).
  assert (None = Some (json_dumps (VDict (delete "auto_remove" d)))) as Habs;
    [|discriminate].
  apply H; [vm_compute; reflexivity..|].
  assert (configs_sent
            (drop (length (calls σ))
               (calls (world_after (open mem_sdk 1%positive) σ)))
          = [None; None]) as -> by (vm_compute; reflexivity).
  apply list_elem_of_here.
Qed.

(** C5 on the in-memory SDK, with a configuration that has another entry
    besides [auto_remove]. *)
Lemma open_config_sent_witness :
  let d : dict :=
    <["auto_remove" := VBool true]> {["freshness_time" := VInt 1000]} in
  let σ := constructed mem_empty (Some d) in
  configs_sent (calls (world_after (open mem_sdk 1%positive) σ)) =
    [Some (json_dumps (VDict {["freshness_time" := VInt 1000]}));
     Some (json_dumps (VDict {["freshness_time" := VInt 1000]}))] ∧
  ∃ config f1,
    (calls (world_after (open mem_sdk 1%positive) σ) =
       calls σ ++
       [Event 1%positive
          (create_wallet "pool" "my-wallet" None config None) f1] ∨
     ∃ f2, calls (world_after (open mem_sdk 1%positive) σ) =
           calls σ ++
           [Event 1%positive
              (create_wallet "pool" "my-wallet" None config None) f1;
            Event 1%positive (open_wallet "my-wallet" config None) f2]).
Proof.
  intros d σ. split; [vm_compute; reflexivity|].
  edestruct (open_config_sent mem_sdk 1%positive σ)
    as (config & f1 & Hcalls & _); [vm_compute; reflexivity..|].
  exists config, f1. exact Hcalls.
Defined.

(** C7 on the in-memory SDK: the scenario of [test_wallet]. *)
Lemma create_did_sets_current_witness :
  let σ := world_after (open mem_sdk 1%positive) (constructed mem_empty None) in
  let seed := "00000000000000000000000000000000"%string in
  result (create_did mem_sdk 1%positive None (Some seed) false) σ
    = Returned (VStr ("did:" +:+ seed)) ∧
  current (world_after (create_did mem_sdk 1%positive None (Some seed) false) σ)
    1%positive
    = Some (VStr ("did:" +:+ seed), VStr ("verkey:" +:+ seed)).
Proof.
  intros σ seed.
  edestruct (create_did_sets_current mem_sdk 1%positive σ)
    with (i := @None string) (s := Some seed) (c := false)
    as (Hres & Hcur & _); [vm_compute; reflexivity..|].
  split; [exact Hres|exact Hcur].
Defined.

(** C8 on the in-memory SDK: the scenario of [test_wallet_did_loading]. *)
Lemma current_identity_switching_witness :
  let σ := world_after (open mem_sdk 1%positive) (constructed mem_empty None) in
  let seed1 := "00000000000000000000000000000000"%string in
  let seed2 := "11111111111111111111111111111111"%string in
  let σ2 :=
    world_after
      (create_did mem_sdk 1%positive None (Some seed1) false;;
       create_did mem_sdk 1%positive None (Some seed2) false) σ in
  let σ3 := world_after (load_did mem_sdk 1%positive ("did:" +:+ seed1)) σ2 in
  current σ2 1%positive
    = Some (VStr ("did:" +:+ seed2), VStr ("verkey:" +:+ seed2)) ∧
  current σ3 1%positive
    = Some (VStr ("did:" +:+ seed1), VStr ("verkey:" +:+ seed1)).
Proof.
  intros σ seed1 seed2.
  edestruct (current_identity_switching mem_sdk 1%positive σ)
    with (iA := @None string) (sA := Some seed1) (cA := false)
         (iB := @None string) (sB := Some seed2) (cB := false)
    as (H2 & _ & H3 & _); [vm_compute; reflexivity..|].
  split; [exact H2|exact H3].
Defined.

(** C9 on the in-memory SDK: the scenario of [test_wallet_did_creation].
    Two identities are created, and the in-memory SDK lists them oldest
    first; so does [stored_dids]. *)
Lemma stored_dids_read_only_witness :
  let seed1 := "00000000000000000000000000000000"%string in
  let seed2 := "11111111111111111111111111111111"%string in
  let created :=
    [(("did:" +:+ seed1)%string, ("verkey:" +:+ seed1)%string);
     (("did:" +:+ seed2)%string, ("verkey:" +:+ seed2)%string)] in
  let σ :=
    world_after
      (open mem_sdk 1%positive;;
       create_did mem_sdk 1%positive None (Some seed1) false;;
       create_did mem_sdk 1%positive None (Some seed2) false)
      (constructed mem_empty None) in
  ∃ v, result (stored_dids mem_sdk 1%positive) σ = Returned v ∧
       oldest_first created v ∧
       wallets (world_after (stored_dids mem_sdk 1%positive) σ) = wallets σ.
Proof.
  intros seed1 seed2 created σ.
  edestruct (stored_dids_read_only mem_sdk 1%positive σ) with (created := created)
    as (v & Hres & _ & Horder & Hw & _); [vm_compute; reflexivity..| |].
  - exists (identity_record <$> created). split; [vm_compute; reflexivity|].
    repeat constructor; eexists; (split; [reflexivity|]);
      split; vm_compute; reflexivity.
  - exists v. split_and!; [exact Hres|exact Horder|exact Hw].
Defined.

(** C10 on the in-memory SDK: after [open], the configuration of the wallet
    still holds [auto_remove], and [close] deletes the wallet data. *)
Lemma open_keeps_config_witness :
  let d : dict := {["auto_remove" := VBool true]} in
  let σ := constructed mem_empty (Some d) in
  let σ' := world_after (open mem_sdk 1%positive) σ in
  dicts σ' !! 1%positive = Some d ∧
  ∃ evs, calls (world_after (close mem_sdk 1%positive) σ') = calls σ' ++ evs ∧
         existsb (deletes 1%positive) evs = true.
Proof.
  intros d σ σ'.
  edestruct (open_keeps_config mem_sdk 1%positive σ)
    as (Hd & w' & Hw' & _ & Hclose); [vm_compute; reflexivity..|].
  split; [exact Hd|].
  assert (_handle w' = Some 1) as Hh.
  { vm_compute in Hw'. by injection Hw' as <-. }
  edestruct Hclose as (evs & Hc & Hdel);
    [rewrite Hh; vm_compute; reflexivity|].
  exists evs. split; [exact Hc|exact Hdel].
Defined.

(** * Concrete runs of the further properties *)

(** X1 on a dict with one entry: the wallet refers to the caller's dict. *)
Lemma init_aliases_config_witness :
  let d : dict := {["freshness_time" := VInt 1000]} in
  let σ := world_after (new_dict d) (empty_world mem_empty) in
  ∃ w, wallets (world_after (__init__ "pool" "my-wallet" (Some 1%positive)) σ)
         !! 1%positive = Some w ∧
       _cfg w = 1%positive.
Proof.
  intros d σ.
  destruct (init_aliases_config "pool" "my-wallet" 1%positive d σ)
    as (w & Hw & _ & Hne & _); [vm_compute; reflexivity|].
  exists w. split; [exact Hw|]. apply Hne. intros H.
  apply (f_equal (lookup "freshness_time")) in H. vm_compute in H.
  discriminate.
Defined.

(** X2 in the world without objects. *)
Lemma init_is_offline_witness :
  let σ := empty_world mem_empty in
  result (__init__ "pool" "my-wallet" None) σ = Returned 1%positive ∧
  calls (world_after (__init__ "pool" "my-wallet" None) σ) = [].
Proof.
  intros σ.
  destruct (init_is_offline "pool" "my-wallet" None σ)
    as (Hres & _ & Hcalls & _); [done|].
  split; [exact Hres|exact Hcalls].
Defined.

(** X3 on a storage that is unavailable. *)
Lemma open_failure_changes_no_wallet_witness :
  let sdk := failing_sdk (IndyError ErrorCode.CommonIOError) in
  let σ := constructed tt None in
  wallets (world_after (open sdk 1%positive) σ) = wallets σ.
Proof.
  intros sdk σ.
  eapply (open_failure_changes_no_wallet sdk 1%positive σ);
    vm_compute; reflexivity.
Defined.

(** X4 on an SDK that fails with [RuntimeError]. *)
Lemma open_foreign_exception_propagates_witness :
  let sdk := failing_sdk (OtherException "RuntimeError") in
  let σ := constructed tt None in
  result (open sdk 1%positive) σ = Raised (OtherException "RuntimeError").
Proof.
  intros sdk σ.
  edestruct (open_foreign_exception_propagates sdk 1%positive σ) as [H _];
    [vm_compute; reflexivity..|done|exact H].
Defined.

(** X5 on an SDK that creates the wallet and cannot open a session. *)
Lemma open_session_failure_propagates_witness :
  let sdk := sessionless_sdk (IndyError ErrorCode.CommonIOError) in
  let σ := constructed tt None in
  result (open sdk 1%positive) σ
    = Raised (IndyError ErrorCode.CommonIOError) ∧
  (_handle <$> wallets (world_after (open sdk 1%positive) σ) !! 1%positive)
    = Some None.
Proof.
  intros sdk σ.
  edestruct (open_session_failure_propagates sdk 1%positive σ) as [H1 H2];
    [vm_compute; reflexivity..|by left|vm_compute; reflexivity|].
  split; [exact H1|]. exact (f_equal (fmap _handle) H2).
Defined.

(** X6 on the in-memory SDK. *)
Lemma open_returns_means_Open_witness :
  let σ := constructed mem_empty None in
  lifecycle 1%positive (calls (world_after (open mem_sdk 1%positive) σ))
    = Open.
Proof.
  intros σ.
  edestruct (open_returns_means_Open mem_sdk 1%positive σ) as (_ & H & _);
    [vm_compute; reflexivity..|exact H].
Defined.

(** X7 on the in-memory SDK, where the wallet data exists. *)
Lemma remove_single_call_witness :
  let σ := constructed mem_existing None in
  result (remove mem_sdk 1%positive) σ = Returned tt ∧
  calls (world_after (remove mem_sdk 1%positive) σ) =
    [Event 1%positive (delete_wallet "my-wallet" None) None].
Proof.
  intros σ.
  edestruct (remove_single_call mem_sdk 1%positive σ)
    as (Hcalls & _ & _ & _ & Hres & _); [vm_compute; reflexivity..|].
  split; [by apply Hres|exact Hcalls].
Defined.

(** X8 on the in-memory SDK: the wallet was never opened, so there is no
    session to close; it is configured with [auto_remove]. *)
Lemma close_session_failure_witness :
  let d : dict := {["auto_remove" := VBool true]} in
  let σ := constructed mem_existing (Some d) in
  result (close mem_sdk 1%positive) σ
    = Raised (IndyError ErrorCode.WalletInvalidHandle) ∧
  calls (world_after (close mem_sdk 1%positive) σ) =
    [Event 1%positive (close_wallet None)
       (Some (IndyError ErrorCode.WalletInvalidHandle))].
Proof.
  intros d σ.
  edestruct (close_session_failure mem_sdk 1%positive σ)
    as (Hres & Hcalls & _); [vm_compute; reflexivity..|].
  split; [exact Hres|exact Hcalls].
Defined.

(** X9 on the in-memory SDK, with [auto_remove] set to 0. *)
Lemma close_without_auto_remove_witness :
  let d : dict := {["auto_remove" := VInt 0]} in
  let σ := world_after (open mem_sdk 1%positive)
             (constructed mem_empty (Some d)) in
  result (close mem_sdk 1%positive) σ = Returned tt.
Proof.
  intros d σ.
  edestruct (close_without_auto_remove mem_sdk 1%positive σ) as (Hres & _);
    [vm_compute; reflexivity..| |exact Hres].
  right. exists (VInt 0). split; vm_compute; reflexivity.
Defined.

(** X10 on the in-memory SDK, with [auto_remove] set to a non-empty
    string. *)
Lemma close_with_auto_remove_witness :
  let d : dict := {["auto_remove" := VStr "yes"]} in
  let σ := world_after (open mem_sdk 1%positive)
             (constructed mem_empty (Some d)) in
  result (close mem_sdk 1%positive) σ = Returned tt ∧
  stored (backend (world_after (close mem_sdk 1%positive) σ)) = ∅.
Proof.
  intros d σ.
  edestruct (close_with_auto_remove mem_sdk 1%positive σ)
    as (Hres & _ & _ & _ & Hb); [vm_compute; reflexivity..|].
  split; [exact Hres|]. rewrite Hb. vm_compute. reflexivity.
Defined.

(** X11 on the in-memory SDK: the wallet was constructed without
    [auto_remove], which the caller sets before [close]. *)
Lemma close_reads_live_config_witness :
  let d : dict := {["freshness_time" := VInt 1000]} in
  let d' : dict := <["auto_remove" := VBool true]> d in
  let σ := world_after (open mem_sdk 1%positive)
             (constructed mem_empty (Some d)) in
  let σ1 := world_after (write_dict 1%positive d') σ in
  ∃ evs, calls (world_after (close mem_sdk 1%positive) σ1) = calls σ1 ++ evs ∧
         existsb (deletes 1%positive) evs = true.
Proof.
  intros d d' σ σ1.
  edestruct (close_reads_live_config mem_sdk 1%positive σ) with (d' := d')
    as (evs & Hc & Hdel); [vm_compute; reflexivity..|].
  exists evs. split; [exact Hc|exact Hdel].
Defined.

(** X12 on the in-memory SDK. *)
Lemma close_returns_means_Closed_witness :
  let σ := world_after (open mem_sdk 1%positive) (constructed mem_empty None) in
  lifecycle 1%positive (calls σ) = Open ∧
  lifecycle 1%positive (calls (world_after (close mem_sdk 1%positive) σ))
    = Closed.
Proof.
  intros σ. split; [vm_compute; reflexivity|].
  edestruct (close_returns_means_Closed mem_sdk 1%positive σ) as [H _];
    [vm_compute; reflexivity..|exact H].
Defined.

(** X13 on the in-memory SDK: the wallet was never opened. *)
Lemma create_did_failure_witness :
  let σ := constructed mem_empty None in
  result (create_did mem_sdk 1%positive None (Some "0000"%string) false) σ
    = Raised (IndyError ErrorCode.WalletInvalidHandle) ∧
  current
    (world_after (create_did mem_sdk 1%positive None (Some "0000"%string) false)
       σ) 1%positive
    = Some (VNone, VNone).
Proof.
  intros σ.
  edestruct (create_did_failure mem_sdk 1%positive σ)
    with (i := @None string) (s := Some "0000"%string) (c := false)
    as (Hres & Hw); [vm_compute; reflexivity..|].
  split; [exact Hres|]. unfold current. rewrite Hw. vm_compute. reflexivity.
Defined.

(** X14 on the in-memory SDK: the wallet holds no identity. *)
Lemma load_did_failure_witness :
  let σ := world_after (open mem_sdk 1%positive) (constructed mem_empty None) in
  result (load_did mem_sdk 1%positive "did:unknown") σ
    = Raised (IndyError ErrorCode.WalletItemNotFound).
Proof.
  intros σ.
  edestruct (load_did_failure mem_sdk 1%positive σ) as (Hres & _);
    [vm_compute; reflexivity..|exact Hres].
Defined.

(** X15 on an SDK whose record has no [verkey] entry. *)
Lemma load_did_missing_verkey_witness :
  let t := json_dumps (VDict {["did" := VStr "did:0000"]}) in
  let σ := constructed tt None in
  result (load_did (answering_sdk t) 1%positive "did:0000") σ
    = Raised (KeyError "verkey") ∧
  current (world_after (load_did (answering_sdk t) 1%positive "did:0000") σ)
    1%positive
    = Some (VStr "did:0000", VNone).
Proof.
  intros t σ.
  edestruct (load_did_missing_verkey (answering_sdk t) 1%positive σ)
    as (Hres & Hw); [vm_compute; reflexivity..|].
  split; [exact Hres|]. unfold current. rewrite Hw. vm_compute. reflexivity.
Defined.

(** X16 on an SDK that answers with a JSON list. *)
Lemma load_did_without_did_witness :
  let t := json_dumps (VList []) in
  let σ := constructed tt None in
  result (load_did (answering_sdk t) 1%positive "did:0000") σ
    = Raised (TypeError "list").
Proof.
  intros t σ.
  edestruct (load_did_without_did (answering_sdk t) 1%positive σ)
    as (Hres & _); [vm_compute; reflexivity..|exact I|exact Hres].
Defined.

(** X19 on the in-memory SDK: [open] leaves the configuration dict alone. *)
Lemma no_method_mutates_a_dict_witness :
  let d : dict := {["auto_remove" := VBool true]} in
  let σ := constructed mem_empty (Some d) in
  dicts (world_after (invoke mem_sdk m_open 1%positive) σ) !! 1%positive
    = Some d.
Proof.
  intros d σ.
  eapply (no_method_mutates_a_dict mem_sdk m_open 1%positive σ);
    vm_compute; reflexivity.
Defined.

(** X20 on the in-memory SDK. *)
Lemma context_manager_is_open_close_witness :
  let σ := constructed mem_empty None in
  result (__aenter__ mem_sdk 1%positive) σ = Returned 1%positive ∧
  result (__aexit__ mem_sdk 1%positive)
    (world_after (__aenter__ mem_sdk 1%positive) σ) = Returned tt.
Proof.
  intros σ.
  edestruct (context_manager_is_open_close mem_sdk 1%positive σ)
    as (H1 & _); [vm_compute; reflexivity..|].
  edestruct (context_manager_is_open_close mem_sdk 1%positive
               (world_after (__aenter__ mem_sdk 1%positive) σ))
    as (_ & _ & H2 & _); [vm_compute; reflexivity..|].
  split; [rewrite H1|rewrite H2]; vm_compute; reflexivity.
Defined.

(** X21 on the in-memory SDK: a wallet constructed, opened and closed is
    reachable, and it has a handle. *)
Lemma handle_iff_ever_opened_witness :
  let σ :=
    world_after (invoke mem_sdk m_close 1%positive)
      (world_after (invoke mem_sdk m_open 1%positive)
         (world_after (__init__ "pool" "my-wallet" None)
            (empty_world mem_empty))) in
  ever_opened 1%positive (calls σ) ∧ lifecycle 1%positive (calls σ) = Closed.
Proof.
  intros σ.
  destruct (wallets σ !! 1%positive) as [w|] eqn:Hw; [|by vm_compute in Hw].
  assert (reachable mem_sdk σ) as Hreach.
  { apply reach_invoke;
      [apply reach_invoke; [apply reach_init; [apply reach_start|done]|]|];
      vm_compute; eauto. }
  split; [|vm_compute; reflexivity].
  apply (handle_iff_ever_opened mem_sdk σ 1%positive w Hreach Hw).
  vm_compute in Hw. injection Hw as <-. cbn. eauto.
Defined.
